(** * The shared IPAM controller (package [ipamshared], shared.go)

    A shallow embedding of [SharedController] and of its two handlers,
    [IpAddressCreatedOrUpdated] and [IpAddressDeleted], together with the
    naming resolver [NameFor] and the failure reporter [LogEventAndFail].

    The handlers talk to three collaborators (the IPAM backend, the
    IpAddress client of the resource store and the Kubernetes event
    client), to the logger and to the clock.  Every such call is a node of
    a program tree ([Prog]); [run] interprets a tree against an arbitrary
    implementation of the collaborators and records the calls, with their
    answers, in the order they were made. *)

From Stdlib Require Import String Ascii List Bool Arith NArith ZArith Lia.
From Stdlib Require Import DecimalString.
From ExtLib Require Import Structures.Monad.
Import ListNotations.
Import MonadNotation.
Local Open Scope string_scope.
Local Open Scope monad_scope.

Set Implicit Arguments.

(* ===================================================================== *)
(** ** Values *)
(* ===================================================================== *)

(** A Go [error] value, kept as the text its [Error()] method returns. *)
Definition error := string.

(** A Go [(value, error)] pair of results: the value when the error is
    [nil], the error otherwise. *)
Inductive result (A : Type) : Type :=
| Ok (a : A)
| Err (e : error).
Arguments Ok {A} a.
Arguments Err {A} e.

(** What a call leaves behind: it returns, or it panics. *)
Inductive Outcome (A : Type) : Type :=
| Returned (a : A)
| Panicked (e : error).
Arguments Returned {A} a.
Arguments Panicked {A} e.

(** [metav1.Time], as a number of ticks. *)
Definition Time := Z.

(** Modelled from the spec: the declaration of [ipamv1.IpAddress] lives in
    the k8s-ipam API package, outside this repository's sources.  The
    fields are those of the spec's data model (Spec: Name, Ref; Status:
    Address, Name, Provider) and the object metadata the code reads through
    [metav1.Object] (namespace, name, UID, resource version). *)
Record IpAddressSpec : Type := {
  Spec_Ref : string;
  Spec_Name : string
}.

Record IpAddressStatus : Type := {
  Status_Address : string;
  Status_Name : string;
  Status_Provider : string
}.

Record IpAddress : Type := {
  Namespace : string;
  Name : string;
  UID : string;
  ResourceVersion : string;
  Spec : IpAddressSpec;
  Status : IpAddressStatus
}.

(** [corev1.ObjectReference] and [corev1.Event], with the fields
    [MakeEvent] fills in. *)
Record ObjectReference : Type := {
  ref_Name : string;
  ref_Namespace : string;
  ref_APIVersion : string;
  ref_UID : string;
  ref_Kind : string;
  ref_ResourceVersion : string
}.

Record Event : Type := {
  GenerateName : string;
  InvolvedObject : ObjectReference;
  Message : string;
  FirstTimestamp : Time;
  LastTimestamp : Time;
  Type_ : string
}.

(* ===================================================================== *)
(** ** Name templates ([text/template])

    The fragment of [text/template] that name templates are written in:
    literal text and field actions [{{.Field}}], executed against the
    anonymous struct [{Tag, Namespace, Name}] of [NameFor]. *)
(* ===================================================================== *)

Module Template.

Inductive Node : Type :=
| TextNode (text : string)
| FieldNode (ident : string).

(** A parsed template: the list of nodes of its root. *)
Definition t := list Node.

(** The data [NameFor] executes the template against. *)
Record Data : Type := {
  Tag : string;
  Namespace : string;
  Name : string
}.

(** Field lookup in the struct: the three exported fields, by exact
    name. *)
Definition field (d : Data) (ident : string) : option string :=
  if String.eqb ident "Tag" then Some (Tag d)
  else if String.eqb ident "Namespace" then Some (Namespace d)
  else if String.eqb ident "Name" then Some (Name d)
  else None.

(** [Execute(&buffer, data)]: the nodes are written to the buffer in
    order; a field the struct does not have stops the execution with an
    error (its text is shortened here to the clause that names the
    field). *)
Fixpoint Execute (tpl : t) (d : Data) (buffer : string) : result string :=
  match tpl with
  | [] => Ok buffer
  | TextNode s :: rest => Execute rest d (buffer ++ s)
  | FieldNode f :: rest =>
      match field d f with
      | Some v => Execute rest d (buffer ++ v)
      | None => Err ("can't evaluate field " ++ f)
      end
  end.

(** *** Parsing the fragment *)

Definition is_alnum (c : ascii) : bool :=
  let n := N_of_ascii c in
  ((48 <=? n) && (n <=? 57) || (65 <=? n) && (n <=? 90)
   || (97 <=? n) && (n <=? 122) || (n =? 95))%N.

Definition is_digit (c : ascii) : bool :=
  let n := N_of_ascii c in ((48 <=? n) && (n <=? 57))%N.

Fixpoint all_alnum (s : string) : bool :=
  match s with
  | EmptyString => true
  | String c s' => is_alnum c && all_alnum s'
  end.

Fixpoint trim_left (s : string) : string :=
  match s with
  | String " " s' => trim_left s'
  | _ => s
  end.

Fixpoint rev_string (acc s : string) : string :=
  match s with
  | EmptyString => acc
  | String c s' => rev_string (String c acc) s'
  end.

Definition trim (s : string) : string :=
  rev_string "" (trim_left (rev_string "" (trim_left s))).

(** The body of an action: [.Ident], possibly between spaces.  Anything
    else is outside the fragment. *)
Definition action (body : string) : option Node :=
  match trim body with
  | String "." (String c rest) =>
      if negb (is_digit c) && is_alnum c && all_alnum rest
      then Some (FieldNode (String c rest))
      else None
  | _ => None
  end.

Definition text_node (s : string) (rest : t) : t :=
  match s with
  | EmptyString => rest
  | _ => TextNode s :: rest
  end.

(** The lexer's two modes: text up to the next left delimiter, and an
    action up to the next right delimiter.  [acc] holds the characters
    of the current item, last one first. *)
Fixpoint scan (in_action : bool) (acc : string) (s : string) : option t :=
  match s with
  | EmptyString =>
      if in_action then None else Some (text_node (rev_string "" acc) [])
  | String c s1 =>
      match in_action, c, s1 with
      | false, "{"%char, String "{"%char s2 =>
          option_map (text_node (rev_string "" acc)) (scan true "" s2)
      | true, "}"%char, String "}"%char s2 =>
          match action (rev_string "" acc), scan false "" s2 with
          | Some n, Some rest => Some (n :: rest)
          | _, _ => None
          end
      | _, _, _ => scan in_action (String c acc) s1
      end
  end.

(** [template.New(...).Parse(text)] on the fragment; [None] for a text
    that is not in it. *)
Definition Parse (text : string) : option t := scan false "" text.

End Template.

(* ===================================================================== *)
(** ** The controller *)
(* ===================================================================== *)

(** [SharedController]: the configuration fields.  The three client
    fields ([Kubernetes], [IpamClient], [Ipam]) are the collaborators the
    programs below are interpreted against. *)
Record SharedController : Type := {
  Tag : string;
  NameTemplate : Template.t;
  IpamName : string
}.

(** [NameFor]: the explicit name when there is one, the rendered template
    otherwise; a rendering error panics. *)
Definition NameFor (c : SharedController) (a : IpAddress) : Outcome string :=
  if negb (String.eqb (Spec_Name (Spec a)) "") then
    Returned (Spec_Name (Spec a))
  else
    match Template.Execute (NameTemplate c)
            {| Template.Tag := Tag c;
               Template.Namespace := Namespace a;
               Template.Name := Name a |} "" with
    | Err err => Panicked err
    | Ok buffer => Returned buffer
    end.

(* ===================================================================== *)
(** ** Formatting ([fmt])

    [LogEventAndFail] hands its message to [fmt.Errorf] as the format
    string, with no operand.  [Fmt.Sprintf0] is [fmt]'s formatting loop for
    that case: text up to a percent sign is copied, and each percent sign
    starts a verb (flags, argument index, width, precision, verb
    character) that, having no operand to print, is replaced by one of
    fmt's error markers. *)
(* ===================================================================== *)

Module Fmt.

Definition byte_in (lo hi : N) (c : ascii) : bool :=
  ((lo <=? N_of_ascii c) && (N_of_ascii c <=? hi))%N.

Definition is_flag (c : ascii) : bool :=
  match c with
  | "#"%char | "0"%char | "+"%char | "-"%char | " "%char => true
  | _ => false
  end.

Fixpoint skip_flags (s : string) : string :=
  match s with
  | String c s' => if is_flag c then skip_flags s' else s
  | EmptyString => s
  end.

(** [parsenum]: the digits at the head of [s].  Returns whether there
    was a number and what follows it; a number that grows past a
    million gives up and moves to the end of the text. *)
Fixpoint parsenum_from (num : N) (isnum : bool) (s : string) : bool * string :=
  match s with
  | String c s' =>
      if byte_in 48 57 c then
        if (1000000 <? num)%N then (false, EmptyString)
        else parsenum_from (num * 10 + (N_of_ascii c - 48))%N true s'
      else (isnum, s)
  | EmptyString => (isnum, s)
  end.

Definition parsenum (s : string) : bool * string := parsenum_from 0%N false s.

(** The text before the first right bracket, and the text after it. *)
Fixpoint to_bracket (s : string) : option (string * string) :=
  match s with
  | EmptyString => None
  | String "]"%char s' => Some (EmptyString, s')
  | String c s' =>
      match to_bracket s' with
      | Some (inside, after) => Some (String c inside, after)
      | None => None
      end
  end.

(** [argNumber] with no operand: [None] when [s] does not open an
    index; otherwise what follows the index and whether it was a
    well-formed [[n]].  No index is ever in range, so an index always
    marks the verb as badly indexed. *)
Definition argNumber (s : string) : option (string * bool) :=
  match s with
  | String "["%char s' =>
      if Nat.ltb (String.length s) 3 then Some (s', false)
      else
        match to_bracket s' with
        | Some (inside, after) =>
            let '(isnum, rest) := parsenum inside in
            Some (after, isnum && String.eqb rest "")
        | None => Some (s', false)
        end
  | _ => None
  end.

(** [utf8.DecodeRuneInString]: the number of bytes of the rune at the
    head of [s], or 0 when the bytes there are not a valid encoding. *)
Definition rune_size (s : string) : nat :=
  match s with
  | EmptyString => 0
  | String b0 r =>
      let x := N_of_ascii b0 in
      let cont := byte_in 128 191 in
      if (x <? 128)%N then 1
      else if byte_in 194 223 b0 then
        match r with
        | String b1 _ => if cont b1 then 2 else 0
        | _ => 0
        end
      else if byte_in 224 239 b0 then
        let lo := if (x =? 224)%N then 160%N else 128%N in
        let hi := if (x =? 237)%N then 159%N else 191%N in
        match r with
        | String b1 (String b2 _) =>
            if byte_in lo hi b1 && cont b2 then 3 else 0
        | _ => 0
        end
      else if byte_in 240 244 b0 then
        let lo := if (x =? 240)%N then 144%N else 128%N in
        let hi := if (x =? 244)%N then 143%N else 191%N in
        match r with
        | String b1 (String b2 (String b3 _)) =>
            if byte_in lo hi b1 && cont b2 && cont b3 then 4 else 0
        | _ => 0
        end
      else 0
  end.

Fixpoint take (n : nat) (s : string) : string :=
  match n, s with
  | S n', String c s' => String c (take n' s')
  | _, _ => EmptyString
  end.

Fixpoint drop (n : nat) (s : string) : string :=
  match n, s with
  | S n', String _ s' => drop n' s'
  | _, _ => s
  end.

(** U+FFFD, as [writeRune] encodes it. *)
Definition rune_error : string :=
  String (ascii_of_N 239) (String (ascii_of_N 191) (String (ascii_of_N 189) "")).

(** The verb rune at the head of [s] as it is written back, and the text
    after it. *)
Definition read_rune (s : string) : string * string :=
  match rune_size s with
  | 0 => (rune_error, drop 1 s)
  | n => (take n s, drop n s)
  end.

(** The state of the scan of one verb: the text still to read, whether
    the item just read was an argument index ([afterIndex]) and whether
    the indexes seen so far were usable ([goodArgNum]). *)
Definition Scan : Type := (string * bool * bool)%type.

(** An explicit argument index, if one opens here. *)
Definition scan_index (st : Scan) : Scan :=
  let '(s, _, goodArgNum) := st in
  match argNumber s with
  | Some (s', found) => (s', found, false)
  | None => (s, false, goodArgNum)
  end.

(** The width: a star asks for an operand there is none of, or digits. *)
Definition scan_width (st : Scan) : string * Scan :=
  let '(s, afterIndex, goodArgNum) := st in
  match s with
  | String "*"%char s' => ("%!(BADWIDTH)", (s', false, goodArgNum))
  | _ =>
      let '(widPresent, s') := parsenum s in
      ("", (s', afterIndex, goodArgNum && negb (afterIndex && widPresent)))
  end.

(** The precision, after a dot. *)
Definition scan_precision (st : Scan) : string * Scan :=
  let '(s, afterIndex, goodArgNum) := st in
  match s with
  | String "."%char s' =>
      let '(s', afterIndex, goodArgNum) :=
        scan_index (s', afterIndex, goodArgNum && negb afterIndex) in
      match s' with
      | String "*"%char s'' => ("%!(BADPREC)", (s'', false, goodArgNum))
      | _ => ("", (snd (parsenum s'), afterIndex, goodArgNum))
      end
  | _ => ("", st)
  end.

(** The index that may stand right before the verb character. *)
Definition scan_last_index (st : Scan) : Scan :=
  let '(_, afterIndex, _) := st in
  if afterIndex then st else scan_index st.

(** The verb character itself: a percent sign is written as it is, any
    other verb finds no operand. *)
Definition scan_verb (st : Scan) : string * string :=
  let '(s, _, goodArgNum) := st in
  match s with
  | EmptyString => ("%!(NOVERB)", EmptyString)
  | String c s' =>
      if Ascii.eqb c "%" then ("%", s')
      else
        let '(r, s'') := read_rune s in
        ("%!" ++ r ++ (if goodArgNum then "(MISSING)" else "(BADINDEX)"), s'')
  end.

(** The text a scan state still has to read. *)
Definition unread (st : Scan) : nat := String.length (fst (fst st)).

(** One verb, from the character after the percent sign: what is
    written, and the text left to format. *)
Definition verb (s : string) : string * string :=
  let st := scan_index (skip_flags s, false, true) in
  let '(badWidth, st) := scan_width st in
  let '(badPrec, st) := scan_precision st in
  let '(out, rest) := scan_verb (scan_last_index st) in
  (badWidth ++ badPrec ++ out, rest).

(** The formatting loop.  Every round consumes at least one character of
    the format, so its length is fuel enough ([FmtFacts.doPrintf_fuel]). *)
Fixpoint doPrintf (fuel : nat) (format : string) : string :=
  match fuel, format with
  | _, EmptyString => EmptyString
  | 0, _ => EmptyString
  | S fuel', String c s =>
      if Ascii.eqb c "%" then
        let '(out, rest) := verb s in out ++ doPrintf fuel' rest
      else String c (doPrintf fuel' s)
  end.

(** [fmt.Sprintf(format)], no operand. *)
Definition Sprintf0 (format : string) : string :=
  doPrintf (String.length format) format.

(** [fmt.Errorf(format)], no operand: the error whose text is the
    formatted string. *)
Definition Errorf (format : string) : error := Sprintf0 format.

(** [fmt.Sprintf("%d", n)] for a length. *)
Definition decimal (n : nat) : string := NilZero.string_of_uint (Nat.to_uint n).

(** A text with no percent sign in it. *)
Fixpoint plain (s : string) : bool :=
  match s with
  | EmptyString => true
  | String c s' => negb (Ascii.eqb c "%") && plain s'
  end.

End Fmt.

(* ===================================================================== *)
(** ** Calls to the collaborators, and programs made of them *)
(* ===================================================================== *)

(** The logrus levels the handlers log at. *)
Inductive Level : Type := DebugLevel | InfoLevel | ErrorLevel.

(** A call that leaves the controller, indexed by the type of its answer:
    the logger, the three methods of [ipam.Ipam], [Update] of the
    namespaced IpAddress client, [Create] of the namespaced event client,
    and [metav1.Now]. *)
Inductive Call : Type -> Type :=
| LogCall (level : Level) (message : string) : Call unit
| AssignCall (name : string) : Call (result string)
| UnassignCall (address : string) : Call (option error)
| SearchCall (query : string) (exact : bool) : Call (result (list string))
| UpdateCall (namespace : string) (a : IpAddress) : Call (result IpAddress)
| EventsCreateCall (namespace : string) (event : Event) : Call (result Event)
| NowCall : Call Time.

(** A method body: it returns, panics, or makes a call and goes on with
    the answer. *)
Inductive Prog (A : Type) : Type :=
| Ret (a : A)
| Panic (e : error)
| Do (X : Type) (call : Call X) (k : X -> Prog A).
Arguments Ret {A} a.
Arguments Panic {A} e.
Arguments Do {A X} call k.

Fixpoint pbind {A B : Type} (p : Prog A) (f : A -> Prog B) : Prog B :=
  match p with
  | Ret a => f a
  | Panic e => Panic e
  | Do call k => Do call (fun x => pbind (k x) f)
  end.

#[export] Instance Monad_Prog : Monad Prog :=
  {| ret := @Ret; bind := @pbind |}.

Definition call {X : Type} (c : Call X) : Prog X := Do c Ret.

(** A pure computation that may panic, as a program. *)
Definition lift {A : Type} (o : Outcome A) : Prog A :=
  match o with
  | Returned a => Ret a
  | Panicked e => Panic e
  end.

(** The error of a Go result pair. *)
Definition err_of {A : Type} (r : result A) : option error :=
  match r with
  | Ok _ => None
  | Err e => Some e
  end.

(* ===================================================================== *)
(** ** The methods of [SharedController] *)
(* ===================================================================== *)

(** The [corev1.Event] literal of [MakeEvent]. *)
Definition event_for (o : IpAddress) (message t : string) (first last : Time)
    : Event :=
  {| GenerateName := Name o;
     InvolvedObject :=
       {| ref_Name := Name o;
          ref_Namespace := Namespace o;
          ref_APIVersion := "v1";
          ref_UID := UID o;
          ref_Kind := "IpAddress";
          ref_ResourceVersion := ResourceVersion o |};
     Message := message;
     FirstTimestamp := first;
     LastTimestamp := last;
     Type_ := t |}.

(** [MakeEvent]: create an event for an object. *)
Definition MakeEvent (c : SharedController) (o : IpAddress) (message : string)
    (warn : bool) : Prog (option error) :=
  let t := if warn then "Warning" else "Normal" in
  first <- call NowCall ;;
  last <- call NowCall ;;
  r <- call (EventsCreateCall (Namespace o) (event_for o message t first last)) ;;
  ret (err_of r).

(** [LogEventAndFail]: create a Warning event for the object and also
    return it as an error.  The result of [MakeEvent] is dropped; the
    message is the format string of [fmt.Errorf]. *)
Definition LogEventAndFail (c : SharedController) (o : IpAddress)
    (message : string) : Prog (option error) :=
  call (LogCall ErrorLevel message) ;;
  _ <- MakeEvent c o message true ;;
  ret (Some (Fmt.Errorf message)).

(** [a.DeepCopy()] followed by the three assignments to its status. *)
Definition with_status (a : IpAddress) (ip oname provider : string) : IpAddress :=
  {| Namespace := Namespace a;
     Name := Name a;
     UID := UID a;
     ResourceVersion := ResourceVersion a;
     Spec := Spec a;
     Status := {| Status_Address := ip;
                  Status_Name := oname;
                  Status_Provider := provider |} |}.

(** *** The messages, one per [fmt.Sprintf] / [log] format of the handlers *)

Definition object_id (a : IpAddress) : string := Namespace a ++ "-" ++ Name a.

(** ["processing address %s-%s"] *)
Definition msg_processing (a : IpAddress) : string :=
  "processing address " ++ object_id a.

(** ["could not assign new address for '%s-%s': %s"] *)
Definition msg_assign_failed (a : IpAddress) (err : error) : string :=
  "could not assign new address for '" ++ object_id a ++ "': " ++ err.

(** ["error searching for address matching '%s' for '%s-%s': %s"] *)
Definition msg_search_failed (a : IpAddress) (err : error) : string :=
  "error searching for address matching '" ++ Spec_Ref (Spec a) ++ "' for '"
    ++ object_id a ++ "': " ++ err.

(** ["did not find address matching '%s' for '%s-%s'"] *)
Definition msg_no_match (a : IpAddress) : string :=
  "did not find address matching '" ++ Spec_Ref (Spec a) ++ "' for '"
    ++ object_id a ++ "'".

(** ["found %d addresses matching '%s' for '%s-%s', need exactly one"] *)
Definition msg_ambiguous (a : IpAddress) (n : nat) : string :=
  "found " ++ Fmt.decimal n ++ " addresses matching '" ++ Spec_Ref (Spec a)
    ++ "' for '" ++ object_id a ++ "', need exactly one".

(** ["assigned %s for '%s-%s'"] *)
Definition msg_assigned (a : IpAddress) (ip : string) : string :=
  "assigned " ++ ip ++ " for '" ++ object_id a ++ "'".

(** ["assigned address %s for '%s-%s', but could not update object: %s"] *)
Definition msg_update_failed (a : IpAddress) (ip : string) (err : error) : string :=
  "assigned address " ++ ip ++ " for '" ++ object_id a
    ++ "', but could not update object: " ++ err.

(** ["processing deleted address %s-%s"] *)
Definition msg_processing_deleted (a : IpAddress) : string :=
  "processing deleted address " ++ object_id a.

(** ["ignoring address, created by provider '%s'"] *)
Definition msg_ignoring (a : IpAddress) : string :=
  "ignoring address, created by provider '" ++ Status_Provider (Status a) ++ "'".

(** ["could not unassign address %s for '%s-%s' from IPAM: %s"] *)
Definition msg_unassign_failed (a : IpAddress) (err : error) : string :=
  "could not unassign address " ++ Status_Address (Status a) ++ " for '"
    ++ object_id a ++ "' from IPAM: " ++ err.

(** ["address %s for '%s-%s' successfully unassigned"] *)
Definition msg_unassigned (a : IpAddress) : string :=
  "address " ++ Status_Address (Status a) ++ " for '" ++ object_id a
    ++ "' successfully unassigned".

(** The tail of the unassigned branch of [IpAddressCreatedOrUpdated], from
    the log line that announces the address on: copy the object, set its
    status, update it. *)
Definition persist (c : SharedController) (a : IpAddress) (oname ip : string)
    : Prog (option error) :=
  call (LogCall InfoLevel (msg_assigned a ip)) ;;
  let a2 := with_status a ip oname (IpamName c) in
  r <- call (UpdateCall (Namespace a) a2) ;;
  match r with
  | Err err => LogEventAndFail c a (msg_update_failed a ip err)
  | Ok _ => ret None
  end.

Definition IpAddressCreatedOrUpdated (c : SharedController) (a : IpAddress)
    : Prog (option error) :=
  call (LogCall DebugLevel (msg_processing a)) ;;
  oname <- lift (NameFor c a) ;;
  if String.eqb (Status_Address (Status a)) "" then
    call (LogCall DebugLevel "address is unassigned") ;;
    if String.eqb (Spec_Ref (Spec a)) "" then
      r <- call (AssignCall oname) ;;
      match r with
      | Err err => LogEventAndFail c a (msg_assign_failed a err)
      | Ok ip => persist c a oname ip
      end
    else
      r <- call (SearchCall (Spec_Ref (Spec a)) true) ;;
      match r with
      | Err err => LogEventAndFail c a (msg_search_failed a err)
      | Ok addresses =>
          match addresses with
          | [] => LogEventAndFail c a (msg_no_match a)
          | _ :: _ :: _ =>
              LogEventAndFail c a (msg_ambiguous a (List.length addresses))
          | [ip] => persist c a oname ip
          end
      end
  else
    call (LogCall DebugLevel "nothing to do") ;;
    ret None.

Definition IpAddressDeleted (c : SharedController) (a : IpAddress)
    : Prog (option error) :=
  call (LogCall DebugLevel (msg_processing_deleted a)) ;;
  if negb (String.eqb (Status_Provider (Status a)) "")
     && negb (String.eqb (Status_Provider (Status a)) (IpamName c)) then
    call (LogCall DebugLevel (msg_ignoring a)) ;;
    ret None
  else if String.eqb (Status_Address (Status a)) "" then
    call (LogCall DebugLevel "nothing to do: address was never assigned") ;;
    ret None
  else if negb (String.eqb (Spec_Ref (Spec a)) "") then
    call (LogCall DebugLevel "nothing to do: address was a reference") ;;
    ret None
  else
    r <- call (UnassignCall (Status_Address (Status a))) ;;
    match r with
    | Some err => LogEventAndFail c a (msg_unassign_failed a err)
    | None =>
        call (LogCall DebugLevel (msg_unassigned a)) ;;
        ret None
    end.

(* ===================================================================== *)
(** ** Running a program against the collaborators *)
(* ===================================================================== *)

(** An implementation of the collaborators over a state [W]: the three
    interfaces the controller holds ([ipam.Ipam], the IpAddress client,
    the event client) and the clock.  Each method answers and moves the
    state. *)
Class Collaborators (W : Type) : Type := {
  Assign : string -> W -> result string * W;
  Unassign : string -> W -> option error * W;
  Search : string -> bool -> W -> result (list string) * W;
  Update : string -> IpAddress -> W -> result IpAddress * W;
  EventsCreate : string -> Event -> W -> result Event * W;
  Now : W -> Time * W
}.

(** One call as it was made, with its answer. *)
Inductive Entry : Type :=
| Logged (level : Level) (message : string)
| Assigned (name : string) (r : result string)
| Unassigned (address : string) (r : option error)
| Searched (query : string) (exact : bool) (r : result (list string))
| Updated (namespace : string) (a : IpAddress) (r : result IpAddress)
| EventCreated (namespace : string) (event : Event) (r : result Event)
| Clock (now : Time).

Definition Trace := list Entry.

Definition entry {X : Type} (c : Call X) : X -> Entry :=
  match c in Call X return X -> Entry with
  | LogCall level message => fun _ => Logged level message
  | AssignCall name => Assigned name
  | UnassignCall address => Unassigned address
  | SearchCall query exact => Searched query exact
  | UpdateCall namespace a => Updated namespace a
  | EventsCreateCall namespace event => EventCreated namespace event
  | NowCall => Clock
  end.

Section Run.

Context {W : Type} `{Collaborators W}.

(** The logger is not one of the collaborators: a log line leaves their
    state as it is. *)
Definition perform {X : Type} (c : Call X) : W -> X * W :=
  match c in Call X return W -> X * W with
  | LogCall _ _ => fun w => (tt, w)
  | AssignCall name => Assign name
  | UnassignCall address => Unassign address
  | SearchCall query exact => Search query exact
  | UpdateCall namespace a => Update namespace a
  | EventsCreateCall namespace event => EventsCreate namespace event
  | NowCall => Now
  end.

(** The run of a program from a state of the collaborators: how it
    ends, the state it leaves, and the calls it made. *)
Record Run (A : Type) : Type := {
  outcome : Outcome A;
  final : W;
  trace : Trace
}.

Fixpoint run {A : Type} (p : Prog A) (w : W) : Run A :=
  match p with
  | Ret a => {| outcome := Returned a; final := w; trace := [] |}
  | Panic e => {| outcome := Panicked e; final := w; trace := [] |}
  | Do c k =>
      let '(x, w1) := perform c w in
      let r := run (k x) w1 in
      {| outcome := outcome r; final := final r; trace := entry c x :: trace r |}
  end.

End Run.

Arguments Run W A : clear implicits.

(** *** What a trace contains *)

(** A call to the IPAM backend. *)
Definition is_backend_call (e : Entry) : bool :=
  match e with
  | Assigned _ _ | Unassigned _ _ | Searched _ _ _ => true
  | _ => false
  end.

Definition is_assign (e : Entry) : bool :=
  match e with Assigned _ _ => true | _ => false end.

Definition is_search (e : Entry) : bool :=
  match e with Searched _ _ _ => true | _ => false end.

Definition is_unassign (e : Entry) : bool :=
  match e with Unassigned _ _ => true | _ => false end.

(** An update of the resource store. *)
Definition is_update (e : Entry) : bool :=
  match e with Updated _ _ _ => true | _ => false end.

(** The objects handed to the store's [Update], in order. *)
Fixpoint written (t : Trace) : list IpAddress :=
  match t with
  | [] => []
  | Updated _ a _ :: t' => a :: written t'
  | _ :: t' => written t'
  end.

(** The addresses handed to the backend's [Unassign], in order. *)
Fixpoint released (t : Trace) : list string :=
  match t with
  | [] => []
  | Unassigned address _ :: t' => address :: released t'
  | _ :: t' => released t'
  end.

(** The addresses a successful [Assign] handed out, in order. *)
Fixpoint allocated (t : Trace) : list string :=
  match t with
  | [] => []
  | Assigned _ (Ok ip) :: t' => ip :: allocated t'
  | _ :: t' => allocated t'
  end.

(** The messages of the Warning events created for the object [o], in
    order (whatever the event client answered). *)
Definition is_warning_for (o : IpAddress) (ev : Event) : bool :=
  String.eqb (Type_ ev) "Warning"
  && String.eqb (ref_Kind (InvolvedObject ev)) "IpAddress"
  && String.eqb (ref_Name (InvolvedObject ev)) (Name o)
  && String.eqb (ref_Namespace (InvolvedObject ev)) (Namespace o)
  && String.eqb (ref_UID (InvolvedObject ev)) (UID o).

Fixpoint warnings (o : IpAddress) (t : Trace) : list string :=
  match t with
  | [] => []
  | EventCreated _ ev _ :: t' =>
      if is_warning_for o ev then Message ev :: warnings o t' else warnings o t'
  | _ :: t' => warnings o t'
  end.

(** The backend's [Assign] failed, or its [Search] failed or did not find
    exactly one address. *)
Definition allocation_failed (e : Entry) : bool :=
  match e with
  | Assigned _ (Err _) => true
  | Searched _ _ (Err _) => true
  | Searched _ _ (Ok addresses) => negb (Nat.eqb (List.length addresses) 1)
  | _ => false
  end.

(** Whether [needle] occurs in [s]. *)
Fixpoint contains (needle s : string) : bool :=
  String.prefix needle s
  || match s with
     | EmptyString => false
     | String _ s' => contains needle s'
     end.

(* ===================================================================== *)
(** ** A scripted implementation of the collaborators

    Every method answers from a fixed script and only the clock moves;
    enough to run the handlers on concrete inputs. *)
(* ===================================================================== *)

Record Script : Type := {
  assign_answer : result string;
  unassign_answer : option error;
  search_answer : result (list string);
  update_error : option error;
  events_error : option error;
  ticks : Z
}.

#[export] Instance Collaborators_Script : Collaborators Script := {|
  Assign := fun _ w => (assign_answer w, w);
  Unassign := fun _ w => (unassign_answer w, w);
  Search := fun _ _ w => (search_answer w, w);
  Update := fun _ a w =>
    (match update_error w with Some e => Err e | None => Ok a end, w);
  EventsCreate := fun _ ev w =>
    (match events_error w with Some e => Err e | None => Ok ev end, w);
  Now := fun w =>
    (ticks w,
     {| assign_answer := assign_answer w;
        unassign_answer := unassign_answer w;
        search_answer := search_answer w;
        update_error := update_error w;
        events_error := events_error w;
        ticks := ticks w + 1 |})
|}.

(* ===================================================================== *)
(** ** The paths through the handlers

    The runs of the two handlers, written out path by path: which answers
    of the collaborators select a path, and the outcome, final state and
    trace it has.  [Created_run] and [Deleted_run] below show that every
    run is one of them. *)
(* ===================================================================== *)

Unset Implicit Arguments.

Section Paths.

Context {W : Type} `{Collaborators W}.

(** The run of [LogEventAndFail], written out: the error line, the two
    readings of the clock, the creation of the Warning event, and the
    formatted message as the error. *)
Definition failure (o : IpAddress) (message : string) (w : W)
    : Run W (option error) :=
  let '(first, w1) := Now w in
  let '(last, w2) := Now w1 in
  let event := event_for o message "Warning" first last in
  let '(r, w3) := EventsCreate (Namespace o) event w2 in
  {| outcome := Returned (Some (Fmt.Errorf message));
     final := w3;
     trace := [Logged ErrorLevel message; Clock first; Clock last;
               EventCreated (Namespace o) event r] |}.

Definition done {A : Type} (o : Outcome A) (w : W) (t : Trace) : Run W A :=
  {| outcome := o; final := w; trace := t |}.

(** A run, with the calls that were made before it. *)
Definition after {A : Type} (t : Trace) (r : Run W A) : Run W A :=
  {| outcome := outcome r; final := final r; trace := (t ++ trace r)%list |}.

(** How the unassigned branch comes by its address: a fresh one from
    [Assign] when there is no reference, the single match of [Search]
    when there is one. *)
Inductive Obtained (a : IpAddress) (oname : string) (w : W)
    : string -> Entry -> W -> Prop :=
| Obtained_assign ip w1 :
    Spec_Ref (Spec a) = "" ->
    Assign oname w = (Ok ip, w1) ->
    Obtained a oname w ip (Assigned oname (Ok ip)) w1
| Obtained_search ip w1 :
    Spec_Ref (Spec a) <> "" ->
    Search (Spec_Ref (Spec a)) true w = (Ok [ip], w1) ->
    Obtained a oname w ip (Searched (Spec_Ref (Spec a)) true (Ok [ip])) w1.

(** The ways the backend can let the unassigned branch down, each with
    the message it is reported with. *)
Inductive Refused (a : IpAddress) (oname : string) (w : W)
    : Entry -> string -> W -> Prop :=
| Refused_assign err w1 :
    Spec_Ref (Spec a) = "" ->
    Assign oname w = (Err err, w1) ->
    Refused a oname w (Assigned oname (Err err)) (msg_assign_failed a err) w1
| Refused_search err w1 :
    Spec_Ref (Spec a) <> "" ->
    Search (Spec_Ref (Spec a)) true w = (Err err, w1) ->
    Refused a oname w (Searched (Spec_Ref (Spec a)) true (Err err))
      (msg_search_failed a err) w1
| Refused_no_match w1 :
    Spec_Ref (Spec a) <> "" ->
    Search (Spec_Ref (Spec a)) true w = (Ok [], w1) ->
    Refused a oname w (Searched (Spec_Ref (Spec a)) true (Ok []))
      (msg_no_match a) w1
| Refused_ambiguous ip1 ip2 more w1 :
    Spec_Ref (Spec a) <> "" ->
    Search (Spec_Ref (Spec a)) true w = (Ok (ip1 :: ip2 :: more), w1) ->
    Refused a oname w
      (Searched (Spec_Ref (Spec a)) true (Ok (ip1 :: ip2 :: more)))
      (msg_ambiguous a (List.length (ip1 :: ip2 :: more))) w1.

(** The paths through [IpAddressCreatedOrUpdated]. *)
Inductive Created (c : SharedController) (a : IpAddress) (w : W)
    : Run W (option error) -> Prop :=
| Created_panic e :
    NameFor c a = Panicked e ->
    Created c a w
      (done (Panicked e) w [Logged DebugLevel (msg_processing a)])
| Created_nothing oname :
    NameFor c a = Returned oname ->
    Status_Address (Status a) <> "" ->
    Created c a w
      (done (Returned None) w
         [Logged DebugLevel (msg_processing a);
          Logged DebugLevel "nothing to do"])
| Created_refused oname e message w1 :
    NameFor c a = Returned oname ->
    Status_Address (Status a) = "" ->
    Refused a oname w e message w1 ->
    Created c a w
      (after [Logged DebugLevel (msg_processing a);
              Logged DebugLevel "address is unassigned"; e]
         (failure a message w1))
| Created_persisted oname ip e w1 a3 w2 :
    NameFor c a = Returned oname ->
    Status_Address (Status a) = "" ->
    Obtained a oname w ip e w1 ->
    Update (Namespace a) (with_status a ip oname (IpamName c)) w1 = (Ok a3, w2) ->
    Created c a w
      (done (Returned None) w2
         [Logged DebugLevel (msg_processing a);
          Logged DebugLevel "address is unassigned"; e;
          Logged InfoLevel (msg_assigned a ip);
          Updated (Namespace a) (with_status a ip oname (IpamName c)) (Ok a3)])
| Created_orphaned oname ip e w1 err w2 :
    NameFor c a = Returned oname ->
    Status_Address (Status a) = "" ->
    Obtained a oname w ip e w1 ->
    Update (Namespace a) (with_status a ip oname (IpamName c)) w1 = (Err err, w2) ->
    Created c a w
      (after [Logged DebugLevel (msg_processing a);
              Logged DebugLevel "address is unassigned"; e;
              Logged InfoLevel (msg_assigned a ip);
              Updated (Namespace a) (with_status a ip oname (IpamName c))
                (Err err)]
         (failure a (msg_update_failed a ip err) w2)).

(** This instance owns the deletion of [a]: no provider is recorded, or
    the recorded provider is this one. *)
Definition owned (c : SharedController) (a : IpAddress) : Prop :=
  Status_Provider (Status a) = "" \/ Status_Provider (Status a) = IpamName c.

(** The paths through [IpAddressDeleted]. *)
Inductive Deleted (c : SharedController) (a : IpAddress) (w : W)
    : Run W (option error) -> Prop :=
| Deleted_foreign :
    Status_Provider (Status a) <> "" ->
    Status_Provider (Status a) <> IpamName c ->
    Deleted c a w
      (done (Returned None) w
         [Logged DebugLevel (msg_processing_deleted a);
          Logged DebugLevel (msg_ignoring a)])
| Deleted_never_assigned :
    owned c a ->
    Status_Address (Status a) = "" ->
    Deleted c a w
      (done (Returned None) w
         [Logged DebugLevel (msg_processing_deleted a);
          Logged DebugLevel "nothing to do: address was never assigned"])
| Deleted_reference :
    owned c a ->
    Status_Address (Status a) <> "" ->
    Spec_Ref (Spec a) <> "" ->
    Deleted c a w
      (done (Returned None) w
         [Logged DebugLevel (msg_processing_deleted a);
          Logged DebugLevel "nothing to do: address was a reference"])
| Deleted_released w1 :
    owned c a ->
    Status_Address (Status a) <> "" ->
    Spec_Ref (Spec a) = "" ->
    Unassign (Status_Address (Status a)) w = (None, w1) ->
    Deleted c a w
      (done (Returned None) w1
         [Logged DebugLevel (msg_processing_deleted a);
          Unassigned (Status_Address (Status a)) None;
          Logged DebugLevel (msg_unassigned a)])
| Deleted_release_failed err w1 :
    owned c a ->
    Status_Address (Status a) <> "" ->
    Spec_Ref (Spec a) = "" ->
    Unassign (Status_Address (Status a)) w = (Some err, w1) ->
    Deleted c a w
      (after [Logged DebugLevel (msg_processing_deleted a);
              Unassigned (Status_Address (Status a)) (Some err)]
         (failure a (msg_unassign_failed a err) w1)).

End Paths.

(* ===================================================================== *)
(** ** Sample inputs *)
(* ===================================================================== *)

(** What [{{.Tag}}-{{.Namespace}}-{{.Name}}] parses to. *)
Definition name_template : Template.t :=
  [Template.FieldNode "Tag"; Template.TextNode "-";
   Template.FieldNode "Namespace"; Template.TextNode "-";
   Template.FieldNode "Name"].

Definition prod : SharedController :=
  {| Tag := "prod"; NameTemplate := name_template; IpamName := "ipam-a" |}.

(** A second controller, with another provider name. *)
Definition other_provider : SharedController :=
  {| Tag := "prod"; NameTemplate := name_template; IpamName := "ipam-b" |}.

(** A controller whose template, [{{.Foo}}], names a field the data does
    not have. *)
Definition misconfigured : SharedController :=
  {| Tag := "prod"; NameTemplate := [Template.FieldNode "Foo"]; IpamName := "ipam-a" |}.

Definition resource (namespace name ref explicit address provider : string)
    : IpAddress :=
  {| Namespace := namespace; Name := name; UID := "6fd1"; ResourceVersion := "41";
     Spec := {| Spec_Ref := ref; Spec_Name := explicit |};
     Status := {| Status_Address := address; Status_Name := "";
                  Status_Provider := provider |} |}.

(** A backend that hands out 10.0.0.5 and finds 10.0.0.9, with a store
    and an event client that accept everything. *)
Definition quiet : Script :=
  {| assign_answer := Ok "10.0.0.5"; unassign_answer := None;
     search_answer := Ok ["10.0.0.9"]; update_error := None;
     events_error := None; ticks := 1000 |}.

Definition answering (assign : result string) (search : result (list string))
    (unassign update : option error) : Script :=
  {| assign_answer := assign; unassign_answer := unassign;
     search_answer := search; update_error := update;
     events_error := None; ticks := 1000 |}.

(* ===================================================================== *)
(** ** Further observations of a trace and of a template *)
(* ===================================================================== *)

(** The store answered an update with an error. *)
Definition update_failed (e : Entry) : bool :=
  match e with
  | Updated _ _ (Err _) => true
  | _ => false
  end.

(** The backend answered a release with an error. *)
Definition release_failed (e : Entry) : bool :=
  match e with
  | Unassigned _ (Some _) => true
  | _ => false
  end.

(** The lines logged at error level, in order. *)
Fixpoint error_lines (t : Trace) : list string :=
  match t with
  | [] => []
  | Logged ErrorLevel message :: t' => message :: error_lines t'
  | _ :: t' => error_lines t'
  end.

(** The events handed to the event client, of any type, each with the
    namespace it was created in, in order. *)
Fixpoint events (t : Trace) : list (string * Event) :=
  match t with
  | [] => []
  | EventCreated namespace ev _ :: t' => (namespace, ev) :: events t'
  | _ :: t' => events t'
  end.

(** The answers of the event client, in order. *)
Fixpoint event_answers (t : Trace) : list (result Event) :=
  match t with
  | [] => []
  | EventCreated _ _ answer :: t' => answer :: event_answers t'
  | _ :: t' => event_answers t'
  end.

(** The three tests of [IpAddressDeleted] that lead to [Unassign]: the
    provider is empty or this one, there is an address, there is no
    reference. *)
Definition releases (c : SharedController) (a : IpAddress) : bool :=
  negb (negb (String.eqb (Status_Provider (Status a)) "")
        && negb (String.eqb (Status_Provider (Status a)) (IpamName c)))
  && negb (String.eqb (Status_Address (Status a)) "")
  && String.eqb (Spec_Ref (Spec a)) "".

(** The texts of an answer that end up in a failure message hold no
    percent sign: the error text of a failed call, the address of a
    successful [Assign], the single match of a [Search]. *)
Definition plain_answer (e : Entry) : bool :=
  match e with
  | Assigned _ (Ok ip) => Fmt.plain ip
  | Assigned _ (Err err) => Fmt.plain err
  | Searched _ _ (Ok [ip]) => Fmt.plain ip
  | Searched _ _ (Err err) => Fmt.plain err
  | Updated _ _ (Err err) => Fmt.plain err
  | Unassigned _ (Some err) => Fmt.plain err
  | _ => true
  end.



(* ===================================================================== *)
(** ** Strings *)
(* ===================================================================== *)


Module StringFacts.

Lemma append_nil_r (s : string) : s ++ "" = s.
Proof. induction s as [|ch s IH]; cbn; [reflexivity | now rewrite IH]. Qed.

Lemma append_assoc (s1 s2 s3 : string) : (s1 ++ s2) ++ s3 = s1 ++ s2 ++ s3.
Proof. induction s1 as [|ch s1 IH]; cbn; [reflexivity | now rewrite IH]. Qed.

Lemma length_append (s1 s2 : string) :
  String.length (s1 ++ s2) = String.length s1 + String.length s2.
Proof. induction s1 as [|ch s1 IH]; cbn; [reflexivity | now rewrite IH]. Qed.

Lemma prefix_append (s1 s2 : string) : String.prefix s1 (s1 ++ s2) = true.
Proof.
  induction s1 as [|ch s1 IH]; cbn.
  - now destruct s2.
  - destruct (ascii_dec ch ch) as [_|ne]; [exact IH | now destruct ne].
Qed.

Lemma contains_here (needle s : string) : contains needle (needle ++ s) = true.
Proof.
  destruct needle as [|ch needle]; [now destruct s|].
  cbn [String.append contains].
  change (String ch (needle ++ s)) with (String ch needle ++ s).
  now rewrite prefix_append.
Qed.

(** An occurrence stays one when text is put in front of it. *)
Lemma contains_after (needle p s : string) :
  contains needle s = true -> contains needle (p ++ s) = true.
Proof.
  intros Hs. induction p as [|ch p IH]; [exact Hs|].
  cbn [String.append contains]. rewrite IH. apply orb_true_r.
Qed.

Lemma contains_middle (needle p s : string) :
  contains needle (p ++ needle ++ s) = true.
Proof. apply contains_after, contains_here. Qed.

End StringFacts.

(* ===================================================================== *)
(** ** Properties of the formatting model *)
(* ===================================================================== *)

Module FmtFacts.
Import Fmt.

Lemma doPrintf_plain_prefix (p s : string) (fuel : nat) :
  plain p = true ->
  doPrintf (String.length p + fuel) (p ++ s) = p ++ doPrintf fuel s.
Proof.
  induction p as [|ch p IH]; intros Hp; [reflexivity|].
  cbn [plain] in Hp. apply andb_prop in Hp as [Hc Hp].
  apply negb_true_iff in Hc.
  cbn [String.length String.append Nat.add doPrintf].
  now rewrite Hc, (IH Hp).
Qed.

(** A format text is copied as it is up to its first percent sign. *)
Lemma Errorf_plain_prefix (p s : string) :
  plain p = true -> Errorf (p ++ s) = p ++ Errorf s.
Proof.
  intros Hp. unfold Errorf, Sprintf0.
  rewrite StringFacts.length_append. now apply doPrintf_plain_prefix.
Qed.

(** A message without a percent sign is its own formatting. *)
Lemma Errorf_plain (message : string) :
  plain message = true -> Errorf message = message.
Proof.
  intros Hp.
  rewrite <- (StringFacts.append_nil_r message) at 1.
  rewrite (Errorf_plain_prefix _ _ Hp). cbn. apply StringFacts.append_nil_r.
Qed.

(** *** The fuel of the formatting loop *)

Lemma skip_flags_length (s : string) :
  String.length (skip_flags s) <= String.length s.
Proof.
  induction s as [|ch s IH]; cbn [skip_flags]; [lia|].
  destruct (is_flag ch); cbn [String.length]; lia.
Qed.

Lemma parsenum_from_length (s : string) (num : N) (isnum : bool) :
  String.length (snd (parsenum_from num isnum s)) <= String.length s.
Proof.
  revert num isnum. induction s as [|ch s IH]; intros num isnum;
    cbn [parsenum_from]; [cbn; lia|].
  destruct (byte_in 48 57 ch); [|cbn; lia].
  destruct (1000000 <? num)%N; [cbn; lia|].
  specialize (IH (num * 10 + (N_of_ascii ch - 48))%N true).
  cbn [String.length]. lia.
Qed.

Lemma to_bracket_length (s inside rest : string) :
  to_bracket s = Some (inside, rest) -> String.length rest < String.length s.
Proof.
  revert inside rest. induction s as [|ch s IH]; intros inside rest;
    cbn [to_bracket]; [discriminate|].
  destruct (Ascii.eqb_spec ch "]") as [->|Hne].
  - intros [= <- <-]. cbn. lia.
  - assert (Hb : match to_bracket s with
                 | Some (i, r) => Some (String ch i, r)
                 | None => None
                 end = Some (inside, rest) ->
                 String.length rest < String.length (String ch s)).
    { destruct (to_bracket s) as [[i r]|] eqn:Hs; [|discriminate].
      intros [= <- <-]. specialize (IH _ _ eq_refl). cbn. lia. }
    destruct ch as [[] [] [] [] [] [] [] []]; try exact Hb; now destruct Hne.
Qed.

Lemma argNumber_length (s rest : string) (found : bool) :
  argNumber s = Some (rest, found) -> String.length rest < String.length s.
Proof.
  unfold argNumber. destruct s as [|ch s]; [discriminate|].
  assert (Hb : (if Nat.ltb (String.length (String ch s)) 3 then Some (s, false)
                else match to_bracket s with
                     | Some (inside, after) =>
                         let '(isnum, r) := parsenum inside in
                         Some (after, isnum && String.eqb r "")
                     | None => Some (s, false)
                     end) = Some (rest, found) ->
               String.length rest < String.length (String ch s)).
  { destruct (Nat.ltb _ 3); [intros [= <- <-]; cbn; lia|].
    destruct (to_bracket s) as [[inside after]|] eqn:Hs.
    - destruct (parsenum inside). intros [= <- <-].
      apply to_bracket_length in Hs. cbn. lia.
    - intros [= <- <-]. cbn. lia. }
  destruct ch as [[] [] [] [] [] [] [] []]; try exact Hb; discriminate.
Qed.

Lemma drop_length (n : nat) (s : string) :
  String.length (drop n s) <= String.length s.
Proof.
  revert s. induction n as [|n IH]; intros [|ch s]; cbn; try lia.
  specialize (IH s). lia.
Qed.

Lemma read_rune_length (s : string) :
  String.length (snd (read_rune s)) <= String.length s.
Proof.
  unfold read_rune. destruct (rune_size s); apply drop_length.
Qed.

Lemma scan_index_length (st : Scan) : unread (scan_index st) <= unread st.
Proof.
  destruct st as [[s afterIndex] goodArgNum]. unfold scan_index, unread.
  destruct (argNumber s) as [[s' found]|] eqn:Ha; cbn; [|lia].
  apply argNumber_length in Ha. lia.
Qed.

Lemma scan_width_length (st : Scan) : unread (snd (scan_width st)) <= unread st.
Proof.
  destruct st as [[s afterIndex] goodArgNum]. unfold scan_width, unread.
  assert (Hd : String.length
                 (fst (fst (snd (let '(widPresent, s') := parsenum s in
                                 ("", (s', afterIndex,
                                       goodArgNum && negb (afterIndex && widPresent)))))))
               <= String.length s).
  { pose proof (parsenum_from_length s 0 false) as Hp. unfold parsenum.
    destruct (parsenum_from 0 false s). exact Hp. }
  destruct s as [|ch s]; [exact Hd|].
  destruct ch as [[] [] [] [] [] [] [] []]; try exact Hd; cbn; lia.
Qed.

Lemma scan_precision_length (st : Scan) :
  unread (snd (scan_precision st)) <= unread st.
Proof.
  destruct st as [[s afterIndex] goodArgNum]. unfold scan_precision, unread.
  destruct s as [|ch s]; [cbn; lia|].
  assert (Hd : String.length
                 (fst (fst (snd
                    (let '(s', afterIndex0, goodArgNum0) :=
                       scan_index (s, afterIndex, goodArgNum && negb afterIndex) in
                     match s' with
                     | String "*"%char s'' => ("%!(BADPREC)", (s'', false, goodArgNum0))
                     | _ => ("", (snd (parsenum s'), afterIndex0, goodArgNum0))
                     end))))
               <= String.length (String ch s)).
  { pose proof (scan_index_length (s, afterIndex, goodArgNum && negb afterIndex)) as Hi.
    destruct (scan_index _) as [[s' ai] g]. unfold unread in Hi. cbn in Hi.
    assert (Hn : String.length (snd (parsenum s')) <= String.length s')
      by apply parsenum_from_length.
    destruct s' as [|c' s'']; [cbn in *; lia|].
    destruct c' as [[] [] [] [] [] [] [] []]; cbn in *; lia. }
  destruct ch as [[] [] [] [] [] [] [] []]; try exact Hd; cbn; lia.
Qed.

Lemma scan_last_index_length (st : Scan) :
  unread (scan_last_index st) <= unread st.
Proof.
  destruct st as [[s afterIndex] goodArgNum]. unfold scan_last_index.
  destruct afterIndex; [lia | apply scan_index_length].
Qed.

Lemma scan_verb_length (st : Scan) :
  String.length (snd (scan_verb st)) <= unread st.
Proof.
  destruct st as [[s afterIndex] goodArgNum]. unfold scan_verb, unread.
  destruct s as [|ch s]; [cbn; lia|].
  destruct (Ascii.eqb ch "%"); [cbn; lia|].
  pose proof (read_rune_length (String ch s)) as Hr.
  destruct (read_rune (String ch s)). exact Hr.
Qed.

(** A verb reads on in the format: what is left is no longer than what
    it was given. *)
Lemma verb_length (s : string) :
  String.length (snd (verb s)) <= String.length s.
Proof.
  unfold verb.
  pose proof (skip_flags_length s) as H0.
  pose proof (scan_index_length (skip_flags s, false, true)) as H1.
  set (st1 := scan_index _) in *.
  pose proof (scan_width_length st1) as H2.
  destruct (scan_width st1) as [badWidth st2].
  pose proof (scan_precision_length st2) as H3.
  destruct (scan_precision st2) as [badPrec st3].
  pose proof (scan_last_index_length st3) as H4.
  pose proof (scan_verb_length (scan_last_index st3)) as H5.
  destruct (scan_verb _) as [out rest].
  unfold unread in *. cbn in *. lia.
Qed.

(** The loop never runs out of fuel: any fuel that covers the length of
    the format gives the same text. *)
Lemma doPrintf_fuel (fuel1 fuel2 : nat) (format : string) :
  String.length format <= fuel1 ->
  String.length format <= fuel2 ->
  doPrintf fuel1 format = doPrintf fuel2 format.
Proof.
  revert fuel2 format.
  induction fuel1 as [|fuel1 IH]; intros fuel2 [|ch s] H1 H2;
    cbn [String.length] in *; try lia.
  - now destruct fuel2.
  - now destruct fuel2.
  - destruct fuel2 as [|fuel2]; [lia|]. cbn [doPrintf].
    destruct (Ascii.eqb ch "%").
    + pose proof (verb_length s) as Hv.
      destruct (verb s) as [out rest]. cbn [snd] in Hv.
      f_equal. apply IH; lia.
    + f_equal. apply IH; lia.
Qed.

(** The formatting of a text that starts with a verb: what the verb
    writes, then the formatting of the rest. *)
Lemma Sprintf0_verb (s : string) :
  Sprintf0 (String "%" s) = fst (verb s) ++ Sprintf0 (snd (verb s)).
Proof.
  unfold Sprintf0. cbn [String.length doPrintf Ascii.eqb Bool.eqb].
  pose proof (verb_length s) as Hv.
  destruct (verb s) as [out rest]. cbn [fst snd] in *.
  f_equal. apply doPrintf_fuel; lia.
Qed.

End FmtFacts.

(* ===================================================================== *)
(** ** Every run is one of the paths *)
(* ===================================================================== *)

Section Handlers.

Context {W : Type} `{Collaborators W}.

Lemma run_LogEventAndFail c o message w :
  run (LogEventAndFail c o message) w = failure o message w.
Proof.
  unfold failure. cbn.
  destruct (Now w) as [first w1]. cbn.
  destruct (Now w1) as [last w2]. cbn.
  destruct (EventsCreate _ _ w2) as [r w3]. reflexivity.
Qed.

Lemma run_persist_ok c a oname ip w a3 w2 :
  Update (Namespace a) (with_status a ip oname (IpamName c)) w = (Ok a3, w2) ->
  run (persist c a oname ip) w
  = done (Returned None) w2
      [Logged InfoLevel (msg_assigned a ip);
       Updated (Namespace a) (with_status a ip oname (IpamName c)) (Ok a3)].
Proof. intros HU. unfold persist. cbn. rewrite HU. reflexivity. Qed.

Lemma run_persist_err c a oname ip w err w2 :
  Update (Namespace a) (with_status a ip oname (IpamName c)) w = (Err err, w2) ->
  run (persist c a oname ip) w
  = after [Logged InfoLevel (msg_assigned a ip);
           Updated (Namespace a) (with_status a ip oname (IpamName c)) (Err err)]
      (failure a (msg_update_failed a ip err) w2).
Proof.
  intros HU. unfold persist. cbn -[LogEventAndFail]. rewrite HU.
  cbn -[LogEventAndFail]. rewrite run_LogEventAndFail. reflexivity.
Qed.

(** Every run of [IpAddressCreatedOrUpdated] is one of the paths. *)
Lemma Created_run c a w : Created c a w (run (IpAddressCreatedOrUpdated c a) w).
Proof.
  unfold IpAddressCreatedOrUpdated. cbn -[LogEventAndFail persist].
  destruct (NameFor c a) as [oname|e] eqn:HN; cbn -[LogEventAndFail persist].
  2: { now apply Created_panic. }
  destruct (String.eqb_spec (Status_Address (Status a)) "") as [HA|HA];
    cbn -[LogEventAndFail persist].
  2: { now apply Created_nothing with oname. }
  destruct (String.eqb_spec (Spec_Ref (Spec a)) "") as [HR|HR];
    cbn -[LogEventAndFail persist].
  - destruct (Assign oname w) as [[ip|err] w1] eqn:HB.
    + destruct (Update (Namespace a) (with_status a ip oname (IpamName c)) w1)
        as [[a3|err] w2] eqn:HU.
      * rewrite (run_persist_ok _ _ _ _ _ _ _ HU).
        eapply Created_persisted; eauto using Obtained_assign.
      * rewrite (run_persist_err _ _ _ _ _ _ _ HU).
        eapply (Created_orphaned c a w); eauto using Obtained_assign.
    + rewrite run_LogEventAndFail.
      eapply (Created_refused c a w); eauto using Refused_assign.
  - destruct (Search (Spec_Ref (Spec a)) true w) as [[[|ip [|ip2 more]]|err] w1] eqn:HB.
    + rewrite run_LogEventAndFail.
      eapply (Created_refused c a w); eauto using Refused_no_match.
    + destruct (Update (Namespace a) (with_status a ip oname (IpamName c)) w1)
        as [[a3|err] w2] eqn:HU.
      * rewrite (run_persist_ok _ _ _ _ _ _ _ HU).
        eapply Created_persisted; eauto using Obtained_search.
      * rewrite (run_persist_err _ _ _ _ _ _ _ HU).
        eapply (Created_orphaned c a w); eauto using Obtained_search.
    + rewrite run_LogEventAndFail.
      eapply (Created_refused c a w); eauto using Refused_ambiguous.
    + rewrite run_LogEventAndFail.
      eapply (Created_refused c a w); eauto using Refused_search.
Qed.

Lemma owned_test c a :
  negb (String.eqb (Status_Provider (Status a)) "")
  && negb (String.eqb (Status_Provider (Status a)) (IpamName c)) = false
  <-> owned c a.
Proof.
  unfold owned.
  destruct (String.eqb_spec (Status_Provider (Status a)) "");
    destruct (String.eqb_spec (Status_Provider (Status a)) (IpamName c));
    cbn; intuition congruence.
Qed.

(** Every run of [IpAddressDeleted] is one of the paths. *)
Lemma Deleted_run c a w : Deleted c a w (run (IpAddressDeleted c a) w).
Proof.
  unfold IpAddressDeleted. cbn -[LogEventAndFail].
  destruct (negb (String.eqb (Status_Provider (Status a)) "")
            && negb (String.eqb (Status_Provider (Status a)) (IpamName c)))
    eqn:HP; cbn -[LogEventAndFail].
  { apply andb_prop in HP as [H1 H2].
    apply negb_true_iff, String.eqb_neq in H1, H2.
    now apply Deleted_foreign. }
  apply owned_test in HP.
  destruct (String.eqb_spec (Status_Address (Status a)) "") as [HA|HA];
    cbn -[LogEventAndFail].
  { now apply Deleted_never_assigned. }
  destruct (String.eqb_spec (Spec_Ref (Spec a)) "") as [HR|HR];
    cbn -[LogEventAndFail].
  2: { now apply Deleted_reference. }
  destruct (Unassign (Status_Address (Status a)) w) as [[err|] w1] eqn:HU.
  - rewrite run_LogEventAndFail. now apply (Deleted_release_failed c a w).
  - now apply Deleted_released.
Qed.

(** *** What a failure report leaves in the trace *)

Lemma failure_outcome o message w :
  outcome (failure o message w) = Returned (Some (Fmt.Errorf message)).
Proof.
  unfold failure. destruct (Now w) as [? w1]. destruct (Now w1) as [? w2].
  now destruct (EventsCreate _ _ w2).
Qed.

Lemma failure_trace o message w :
  exists first last r,
    trace (failure o message w)
    = [Logged ErrorLevel message; Clock first; Clock last;
       EventCreated (Namespace o) (event_for o message "Warning" first last) r].
Proof.
  unfold failure. destruct (Now w) as [first w1]. destruct (Now w1) as [last w2].
  destruct (EventsCreate _ _ w2) as [r w3]. now exists first, last, r.
Qed.

Lemma is_warning_for_event o message first last :
  is_warning_for o (event_for o message "Warning" first last) = true.
Proof. unfold is_warning_for. cbn. now rewrite !String.eqb_refl. Qed.

End Handlers.

(* ===================================================================== *)
(** ** The claims *)
(* ===================================================================== *)

Section Claims.

Context {W : Type} `{Collaborators W}.

(** The run of a handler, taken apart into its paths. *)
Ltac created_paths c a w :=
  let r := fresh "r" in
  let P := fresh "P" in
  generalize (Created_run c a w);
  generalize (run (IpAddressCreatedOrUpdated c a) w);
  intros r P;
  destruct P as [ e HN
                | oname HN Hset
                | oname e message w1 HN Hunset Hrefused
                | oname ip e w1 a3 w2 HN Hunset Hobtained Hupdate
                | oname ip e w1 err w2 HN Hunset Hobtained Hupdate ].

Ltac deleted_paths c a w :=
  let r := fresh "r" in
  let P := fresh "P" in
  generalize (Deleted_run c a w);
  generalize (run (IpAddressDeleted c a) w);
  intros r P;
  destruct P as [ Hforeign1 Hforeign2
                | Howned Hunset
                | Howned Hset Href
                | w1 Howned Hset Hfresh Hrelease
                | err w1 Howned Hset Hfresh Hrelease ].

(** The report of a failure, taken apart into its outcome and its trace. *)
Ltac report_of o m w :=
  let first := fresh "first" in
  let last := fresh "last" in
  let answer := fresh "answer" in
  let Ht := fresh "Ht" in
  destruct (failure_trace o m w) as (first & last & answer & Ht);
  cbn [after done outcome final trace app] in *;
  rewrite ?Ht, ?failure_outcome in *.

Ltac report :=
  match goal with
  | |- context [failure ?o ?m ?w] => report_of o m w
  | H : context [failure ?o ?m ?w] |- _ => report_of o m w
  end.

(** The address, when there is one, came from a successful call. *)
Lemma Obtained_not_failed a oname (w : W) ip e w1 :
  Obtained a oname w ip e w1 ->
  allocation_failed e = false /\ is_update e = false /\ is_unassign e = false.
Proof. now destruct 1. Qed.

Lemma Refused_failed a oname (w : W) e message w1 :
  Refused a oname w e message w1 ->
  allocation_failed e = true /\ is_update e = false /\ is_unassign e = false.
Proof. now destruct 1. Qed.

(** C1, as amended.  For every resource whose Status.Address is non-empty,
    [IpAddressCreatedOrUpdated] makes no IPAM backend call, attempts no
    store update and leaves the collaborators as they were; it returns
    success whenever [NameFor] returns, and ends in [NameFor]'s panic
    otherwise. *)
Theorem assigned_resource_is_left_alone c a (w : W) :
  Status_Address (Status a) <> "" ->
  let r := run (IpAddressCreatedOrUpdated c a) w in
  existsb is_backend_call (trace r) = false
  /\ existsb is_update (trace r) = false
  /\ final r = w
  /\ outcome r = match NameFor c a with
                 | Returned _ => Returned None
                 | Panicked e => Panicked e
                 end.
Proof.
  intros HA. cbv zeta.
  created_paths c a w;
    try contradiction;
    match goal with HN : NameFor c a = _ |- _ => rewrite HN end;
    repeat split; reflexivity.
Qed.

(** C2.  [IpAddressDeleted] calls the backend's [Unassign], with
    Status.Address, if and only if Status.Provider is empty or this
    instance's provider tag ([IpamName]), Status.Address is non-empty and
    Spec.Ref is empty; in every other case it returns success without any
    backend call.  It never calls [Assign] or [Search].  In particular a
    foreign non-empty Status.Provider never triggers [Unassign], whatever
    Status.Address, and neither does a non-empty Spec.Ref, even under this
    instance's own provider tag. *)
Theorem deletion_releases_exactly_owned_fresh_addresses c a (w : W) :
  let r := run (IpAddressDeleted c a) w in
  let releasing :=
    owned c a /\ Status_Address (Status a) <> "" /\ Spec_Ref (Spec a) = "" in
  (releasing <-> released (trace r) = [Status_Address (Status a)])
  /\ (releasing <-> existsb is_unassign (trace r) = true)
  /\ (~ releasing ->
      outcome r = Returned None /\ existsb is_backend_call (trace r) = false)
  /\ existsb is_assign (trace r) = false
  /\ existsb is_search (trace r) = false
  /\ (Status_Provider (Status a) <> "" ->
      Status_Provider (Status a) <> IpamName c ->
      existsb is_unassign (trace r) = false)
  /\ (Spec_Ref (Spec a) <> "" ->
      Status_Provider (Status a) = IpamName c ->
      existsb is_unassign (trace r) = false).
Proof.
  cbv zeta. unfold owned.
  deleted_paths c a w; try report; unfold owned in *; cbn;
    repeat split; intros; try reflexivity; try discriminate;
    intuition congruence.
Qed.

(** C10.  On deletion an empty Status.Provider counts as this instance's
    own: with empty Status.Provider, non-empty Status.Address and empty
    Spec.Ref, [IpAddressDeleted] calls [Unassign] with Status.Address.
    For such an address (assigned, not a reference) the call is skipped
    only when Status.Provider is non-empty and differs from this
    instance's provider tag. *)
Theorem empty_provider_is_released c a (w : W) :
  Status_Address (Status a) <> "" ->
  Spec_Ref (Spec a) = "" ->
  let r := run (IpAddressDeleted c a) w in
  (Status_Provider (Status a) = "" ->
   released (trace r) = [Status_Address (Status a)])
  /\ (released (trace r) = [] <->
      Status_Provider (Status a) <> ""
      /\ Status_Provider (Status a) <> IpamName c).
Proof.
  intros HA HR. cbv zeta.
  deleted_paths c a w; try report; unfold owned in *; cbn;
    repeat split; intros; try reflexivity; try discriminate;
    intuition congruence.
Qed.

(** C3.  For every unassigned resource, whenever the creation path fails
    before persistence (the backend's [Assign] answers with an error, or
    its [Search] answers with an error, with no match or with more than
    one), [IpAddressCreatedOrUpdated] returns a non-nil error and attempts
    no store update. *)
Theorem failed_allocation_is_not_persisted c a (w : W) :
  Status_Address (Status a) = "" ->
  let r := run (IpAddressCreatedOrUpdated c a) w in
  existsb allocation_failed (trace r) = true ->
  (exists err, outcome r = Returned (Some err))
  /\ existsb is_update (trace r) = false
  /\ written (trace r) = [].
Proof.
  intros HA. cbv zeta.
  created_paths c a w; intros Hf; try report.
  - cbn in Hf. discriminate Hf.
  - contradiction.
  - destruct (Refused_failed _ _ _ _ _ _ Hrefused) as (_ & Hu & _).
    cbn. rewrite Hu. split; [eauto|]. split; [reflexivity|].
    now destruct Hrefused.
  - destruct (Obtained_not_failed _ _ _ _ _ _ Hobtained) as (Hn & _).
    cbn in Hf. rewrite Hn in Hf. discriminate Hf.
  - destruct (Obtained_not_failed _ _ _ _ _ _ Hobtained) as (Hn & _).
    cbn in Hf. rewrite Hn in Hf. discriminate Hf.
Qed.

(** The other direction: each refusal of the backend shows in the trace
    as a failed allocation. *)
Lemma refusal_is_a_failed_allocation c a (w : W) oname0 e0 message0 w0 :
  NameFor c a = Returned oname0 ->
  Status_Address (Status a) = "" ->
  Refused a oname0 w e0 message0 w0 ->
  existsb allocation_failed (trace (run (IpAddressCreatedOrUpdated c a) w)) = true.
Proof.
  intros HN0 HA HR.
  created_paths c a w; try report; try congruence;
    replace oname with oname0 in * by congruence.
  - cbn. now rewrite (proj1 (Refused_failed _ _ _ _ _ _ Hrefused)).
  - destruct HR, Hobtained; congruence.
  - destruct HR, Hobtained; congruence.
Qed.

(** C4.  When [IpAddressCreatedOrUpdated] succeeds on a resource with
    empty Status.Address, exactly one object was handed to the store's
    [Update]: the resource with Status.Address set to the address the
    backend gave (by [Assign] when Spec.Ref is empty, the single match of
    [Search] otherwise), Status.Name to the name [NameFor] resolved and
    Status.Provider to this instance's provider tag ([IpamName]); and the
    store accepted it. *)
Theorem success_writes_the_status c a (w : W) :
  Status_Address (Status a) = "" ->
  let r := run (IpAddressCreatedOrUpdated c a) w in
  outcome r = Returned None ->
  exists oname ip a2 stored,
    NameFor c a = Returned oname
    /\ (Spec_Ref (Spec a) = "" /\ In (Assigned oname (Ok ip)) (trace r)
        \/ Spec_Ref (Spec a) <> ""
           /\ In (Searched (Spec_Ref (Spec a)) true (Ok [ip])) (trace r))
    /\ written (trace r) = [a2]
    /\ In (Updated (Namespace a) a2 (Ok stored)) (trace r)
    /\ Status a2 = {| Status_Address := ip;
                      Status_Name := oname;
                      Status_Provider := IpamName c |}
    /\ Spec a2 = Spec a
    /\ (Namespace a2, Name a2, UID a2, ResourceVersion a2)
       = (Namespace a, Name a, UID a, ResourceVersion a).
Proof.
  intros HA. cbv zeta.
  created_paths c a w; intros Hs; try report; try discriminate Hs.
  - contradiction.
  - exists oname, ip, (with_status a ip oname (IpamName c)), a3.
    split; [assumption|].
    destruct Hobtained; (split; [|split]);
      cbn; try tauto; repeat split; tauto.
Qed.

(** And it does succeed: with a name, an address and a store that accepts
    the update, the handler returns success. *)
Lemma persisted_address_is_a_success c a (w : W) oname0 ip0 e0 w0 a0 w' :
  NameFor c a = Returned oname0 ->
  Status_Address (Status a) = "" ->
  Obtained a oname0 w ip0 e0 w0 ->
  Update (Namespace a) (with_status a ip0 oname0 (IpamName c)) w0 = (Ok a0, w') ->
  outcome (run (IpAddressCreatedOrUpdated c a) w) = Returned None
  /\ final (run (IpAddressCreatedOrUpdated c a) w) = w'.
Proof.
  intros HN0 HA HO HU.
  created_paths c a w; try report; try congruence;
    replace oname with oname0 in * by congruence.
  - destruct HO, Hrefused; congruence.
  - destruct HO, Hobtained; try congruence;
      match goal with
      | A : ?f = (Ok ?x, ?u), B : ?f = (Ok ?y, ?v) |- _ =>
          assert (x = y /\ u = v) as [-> ->] by (split; congruence)
      end; cbn; split; congruence.
  - destruct HO, Hobtained; try congruence;
      match goal with
      | A : ?f = (Ok ?x, ?u), B : ?f = (Ok ?y, ?v) |- _ =>
          assert (x = y /\ u = v) as [-> ->] by (split; congruence)
      end; congruence.
Qed.

(** *** Persistence failures *)

(** When the store refuses the update, the handler reports it: the error
    is [fmt.Errorf] of the message that names the address, the same
    message is that of the one Warning event, and no [Unassign] is made,
    so the address [Assign] handed out stays allocated. *)
Lemma refused_update_orphans_the_address c a (w : W) oname0 ip0 e0 w0 err0 w' :
  NameFor c a = Returned oname0 ->
  Status_Address (Status a) = "" ->
  Obtained a oname0 w ip0 e0 w0 ->
  Update (Namespace a) (with_status a ip0 oname0 (IpamName c)) w0 = (Err err0, w') ->
  let r := run (IpAddressCreatedOrUpdated c a) w in
  outcome r = Returned (Some (Fmt.Errorf (msg_update_failed a ip0 err0)))
  /\ warnings a (trace r) = [msg_update_failed a ip0 err0]
  /\ released (trace r) = []
  /\ existsb is_unassign (trace r) = false.
Proof.
  intros HN0 HA HO HU. cbv zeta.
  created_paths c a w; try report; try congruence;
    replace oname with oname0 in * by congruence.
  - destruct HO, Hrefused; congruence.
  - destruct HO, Hobtained; try congruence;
      match goal with
      | A : ?f = (Ok ?x, ?u), B : ?f = (Ok ?y, ?v) |- _ =>
          assert (x = y /\ u = v) as [-> ->] by (split; congruence)
      end; congruence.
  - assert (ip = ip0 /\ w1 = w0) as [-> ->].
    { destruct HO, Hobtained; try congruence; split; congruence. }
    assert (err = err0) as -> by congruence.
    destruct Hobtained; cbn [warnings released existsb is_unassign orb];
      rewrite is_warning_for_event; repeat split.
Qed.

(** The formatted message still names the address when the address has no
    percent sign in it. *)
Lemma update_error_names_plain_address a ip err :
  Fmt.plain ip = true ->
  contains ip (Fmt.Errorf (msg_update_failed a ip err)) = true.
Proof.
  intros Hp. unfold msg_update_failed.
  rewrite (FmtFacts.Errorf_plain_prefix "assigned address " _ eq_refl).
  rewrite (FmtFacts.Errorf_plain_prefix ip _ Hp).
  apply StringFacts.contains_middle.
Qed.

(** *** Errors and Warning events *)

(** Whenever [IpAddressCreatedOrUpdated] returns an error, exactly one
    Warning event was created for the resource, its message was logged at
    error level, and the error is [fmt.Errorf] of that message. *)
Lemma created_error_is_the_formatted_warning c a (w : W) returned :
  let r := run (IpAddressCreatedOrUpdated c a) w in
  outcome r = Returned (Some returned) ->
  exists message,
    warnings a (trace r) = [message]
    /\ In (Logged ErrorLevel message) (trace r)
    /\ returned = Fmt.Errorf message.
Proof.
  cbv zeta.
  created_paths c a w; intros He; try report; try discriminate He.
  - exists message. injection He as <-. split; [|split; [|reflexivity]].
    + destruct Hrefused; cbn [warnings]; now rewrite is_warning_for_event.
    + cbn [In]. auto 10.
  - exists (msg_update_failed a ip err).
    injection He as <-. split; [|split; [|reflexivity]].
    + destruct Hobtained; cbn [warnings]; now rewrite is_warning_for_event.
    + cbn [In]. auto 10.
Qed.

(** The same for [IpAddressDeleted]. *)
Lemma deleted_error_is_the_formatted_warning c a (w : W) returned :
  let r := run (IpAddressDeleted c a) w in
  outcome r = Returned (Some returned) ->
  exists message,
    warnings a (trace r) = [message]
    /\ In (Logged ErrorLevel message) (trace r)
    /\ returned = Fmt.Errorf message.
Proof.
  cbv zeta.
  deleted_paths c a w; intros He; try report; try discriminate He.
  exists (msg_unassign_failed a err).
  injection He as <-. split; [|split; [|reflexivity]].
  - cbn [warnings]. now rewrite is_warning_for_event.
  - cbn [In]. auto 10.
Qed.

(** *** Names *)

(** C6.  For every resource with non-empty Spec.Name, [NameFor] returns
    Spec.Name as it is, whatever the template, the tag, the namespace and
    the name of the resource. *)
Theorem explicit_name_wins c a :
  Spec_Name (Spec a) <> "" ->
  NameFor c a = Returned (Spec_Name (Spec a)).
Proof.
  intros Hn. unfold NameFor.
  now destruct (String.eqb_spec (Spec_Name (Spec a)) "").
Qed.

(** C7.  For every resource with empty Spec.Name, [NameFor] returns the
    configured template executed on the three inputs Tag (the
    controller's tag), Namespace and Name (the resource's); a template
    that fails to execute makes it panic.  With tag [prod], namespace
    [ns1], name [a] and the template [{{.Tag}}-{{.Namespace}}-{{.Name}}]
    the name is [prod-ns1-a]. *)
Theorem empty_name_renders_the_template c a :
  Spec_Name (Spec a) = "" ->
  NameFor c a
  = match Template.Execute (NameTemplate c)
            {| Template.Tag := Tag c;
               Template.Namespace := Namespace a;
               Template.Name := Name a |} "" with
    | Ok rendered => Returned rendered
    | Err err => Panicked err
    end
  /\ (Tag c = "prod" -> Namespace a = "ns1" -> Name a = "a" ->
      Template.Parse "{{.Tag}}-{{.Namespace}}-{{.Name}}" = Some (NameTemplate c) ->
      NameFor c a = Returned "prod-ns1-a").
Proof.
  intros Hn. unfold NameFor. rewrite Hn. cbn [String.eqb negb].
  split.
  - now destruct (Template.Execute _ _ _).
  - intros Ht Hns Hname Hp.
    assert (Hparsed : Template.Parse "{{.Tag}}-{{.Namespace}}-{{.Name}}"
                      = Some name_template) by reflexivity.
    rewrite Hparsed in Hp. injection Hp as Hp.
    rewrite <- Hp, Ht, Hns, Hname. reflexivity.
Qed.

(** C9.  [IpAddressCreatedOrUpdated] resolves the name before it looks at
    Status.Address: for every resource with empty Spec.Name, whatever its
    status, a template that fails to execute makes the handler panic after
    its first log line, before any call to a collaborator. *)
Theorem name_is_resolved_before_the_status_is_read c a (w : W) reason :
  Spec_Name (Spec a) = "" ->
  Template.Execute (NameTemplate c)
    {| Template.Tag := Tag c;
       Template.Namespace := Namespace a;
       Template.Name := Name a |} "" = Err reason ->
  let r := run (IpAddressCreatedOrUpdated c a) w in
  outcome r = Panicked reason
  /\ trace r = [Logged DebugLevel (msg_processing a)]
  /\ final r = w.
Proof.
  intros Hn He. cbv zeta.
  assert (HP : NameFor c a = Panicked reason).
  { unfold NameFor. rewrite Hn, He. reflexivity. }
  created_paths c a w; try congruence.
  repeat split. cbn. congruence.
Qed.

End Claims.

(* ===================================================================== *)
(** ** The claims on concrete runs *)
(* ===================================================================== *)

(** C1, as stated, fails: the resource below has its address, yet under a
    controller whose template cannot be executed the handler does not
    return success; it panics in [NameFor]. *)
Lemma assigned_resource_can_panic :
  let a := resource "default" "foo" "" "" "10.0.0.5" "ipam-a" in
  let r := run (IpAddressCreatedOrUpdated misconfigured a) quiet in
  Status_Address (Status a) <> ""
  /\ outcome r = Panicked "can't evaluate field Foo"
  /\ outcome r <> Returned None.
Proof.
  cbv zeta. split; [discriminate|]. split; [reflexivity | discriminate].
Qed.

Lemma assigned_resource_is_left_alone_witness :
  let a := resource "default" "foo" "" "" "10.0.0.5" "ipam-a" in
  let r := run (IpAddressCreatedOrUpdated prod a) quiet in
  Status_Address (Status a) <> ""
  /\ (existsb is_backend_call (trace r) = false
      /\ existsb is_update (trace r) = false
      /\ final r = quiet
      /\ outcome r = match NameFor prod a with
                     | Returned _ => Returned None
                     | Panicked e => Panicked e
                     end).
Proof.
  cbv zeta. split; [discriminate|].
  apply (assigned_resource_is_left_alone prod
           (resource "default" "foo" "" "" "10.0.0.5" "ipam-a") quiet).
  discriminate.
Defined.

(** An owned, assigned, fresh address is released; the same address under
    a foreign provider, or held by reference, is not. *)
Example deletion_releases_examples :
  released (trace (run (IpAddressDeleted prod
                          (resource "default" "foo" "" "" "10.0.0.5" "ipam-a"))
                     quiet)) = ["10.0.0.5"]
  /\ released (trace (run (IpAddressDeleted prod
                             (resource "default" "foo" "" "" "10.0.0.5" "other"))
                        quiet)) = []
  /\ released (trace (run (IpAddressDeleted prod
                             (resource "default" "foo" "host=x" "" "10.0.0.5" "ipam-a"))
                        quiet)) = [].
Proof. repeat split. Qed.

Lemma failed_allocation_is_not_persisted_witness :
  let a := resource "default" "foo" "" "" "" "" in
  let w := answering (Err "pool exhausted") (Ok []) None None in
  let r := run (IpAddressCreatedOrUpdated prod a) w in
  Status_Address (Status a) = ""
  /\ existsb allocation_failed (trace r) = true
  /\ ((exists err, outcome r = Returned (Some err))
      /\ existsb is_update (trace r) = false
      /\ written (trace r) = []).
Proof.
  cbv zeta. split; [reflexivity|]. split; [reflexivity|].
  apply (failed_allocation_is_not_persisted prod
           (resource "default" "foo" "" "" "" "")
           (answering (Err "pool exhausted") (Ok []) None None));
    reflexivity.
Defined.

(** The same with a reference that matches nothing, and with one that
    matches twice. *)
Example ambiguous_reference_examples :
  let a := resource "default" "foo" "host=x" "" "" "" in
  let none := run (IpAddressCreatedOrUpdated prod a)
                (answering (Ok "10.0.0.5") (Ok []) None None) in
  let two := run (IpAddressCreatedOrUpdated prod a)
               (answering (Ok "10.0.0.5") (Ok ["10.0.0.7"; "10.0.0.8"]) None None) in
  outcome none
  = Returned (Some "did not find address matching 'host=x' for 'default-foo'")
  /\ written (trace none) = []
  /\ outcome two
     = Returned (Some "found 2 addresses matching 'host=x' for 'default-foo', need exactly one")
  /\ written (trace two) = [].
Proof. repeat split. Qed.

Lemma success_writes_the_status_witness :
  let a := resource "default" "foo" "" "" "" "" in
  let r := run (IpAddressCreatedOrUpdated prod a) quiet in
  Status_Address (Status a) = ""
  /\ outcome r = Returned None
  /\ exists oname ip a2 stored,
       NameFor prod a = Returned oname
       /\ (Spec_Ref (Spec a) = "" /\ In (Assigned oname (Ok ip)) (trace r)
           \/ Spec_Ref (Spec a) <> ""
              /\ In (Searched (Spec_Ref (Spec a)) true (Ok [ip])) (trace r))
       /\ written (trace r) = [a2]
       /\ In (Updated (Namespace a) a2 (Ok stored)) (trace r)
       /\ Status a2 = {| Status_Address := ip;
                         Status_Name := oname;
                         Status_Provider := IpamName prod |}
       /\ Spec a2 = Spec a
       /\ (Namespace a2, Name a2, UID a2, ResourceVersion a2)
          = (Namespace a, Name a, UID a, ResourceVersion a).
Proof.
  cbv zeta. split; [reflexivity|]. split; [reflexivity|].
  apply (success_writes_the_status prod
           (resource "default" "foo" "" "" "" "") quiet);
    reflexivity.
Defined.

(** The end-to-end scenario: the address 10.0.0.5 of [Assign], the
    rendered name and the provider tag are what is written. *)
Example end_to_end_status :
  written (trace (run (IpAddressCreatedOrUpdated prod
                         (resource "default" "foo" "" "" "" ""))
                    quiet))
  = [with_status (resource "default" "foo" "" "" "" "")
       "10.0.0.5" "prod-default-foo" "ipam-a"].
Proof. reflexivity. Qed.

(** C5, on a run where it fails.  The backend hands out an address with
    a zone, [fe80::1%eth0]; the store refuses the update.  The handler
    returns an error and releases nothing, but [fmt.Errorf] reads the
    percent sign of the address as a verb, and the text of the error no
    longer names the address that was assigned. *)
Theorem update_error_garbles_the_address :
  let a := resource "default" "foo" "" "" "" "" in
  let w := answering (Ok "fe80::1%eth0") (Ok []) None (Some "conflict") in
  let r := run (IpAddressCreatedOrUpdated prod a) w in
  allocated (trace r) = ["fe80::1%eth0"]
  /\ released (trace r) = []
  /\ warnings a (trace r)
     = ["assigned address fe80::1%eth0 for 'default-foo', but could not update object: conflict"]
  /\ outcome r
     = Returned (Some "assigned address fe80::1%!e(MISSING)th0 for 'default-foo', but could not update object: conflict")
  /\ (forall err, outcome r = Returned (Some err) ->
      contains "fe80::1%eth0" err = false).
Proof.
  cbv zeta. repeat split.
  intros err He. vm_compute in He. injection He as <-. reflexivity.
Qed.

Lemma explicit_name_wins_witness :
  let a := resource "ns1" "a" "" "web1" "" "" in
  Spec_Name (Spec a) <> "" /\ NameFor misconfigured a = Returned "web1".
Proof.
  cbv zeta. split; [discriminate|].
  apply (explicit_name_wins misconfigured (resource "ns1" "a" "" "web1" "" "")).
  discriminate.
Defined.

Lemma empty_name_renders_the_template_witness :
  let a := resource "ns1" "a" "" "" "" "" in
  Spec_Name (Spec a) = ""
  /\ Tag prod = "prod" /\ Namespace a = "ns1" /\ Name a = "a"
  /\ Template.Parse "{{.Tag}}-{{.Namespace}}-{{.Name}}" = Some (NameTemplate prod)
  /\ NameFor prod a = Returned "prod-ns1-a".
Proof.
  cbv zeta. repeat (split; [reflexivity|]).
  apply (proj2 (empty_name_renders_the_template prod
                  (resource "ns1" "a" "" "" "" "") eq_refl));
    reflexivity.
Defined.

(** C8, on a run where it fails.  The reference holds a percent sign and
    matches nothing.  The Warning event carries the message as it was
    built; the error carries what [fmt.Errorf] made of it, the message
    being its format string: the two texts differ. *)
Theorem error_text_differs_from_the_warning :
  let a := resource "default" "foo" "host=web%" "" "" "" in
  let w := answering (Ok "10.0.0.5") (Ok []) None None in
  let r := run (IpAddressCreatedOrUpdated prod a) w in
  warnings a (trace r)
  = ["did not find address matching 'host=web%' for 'default-foo'"]
  /\ outcome r
     = Returned (Some "did not find address matching 'host=web%!'(MISSING) for 'default-foo'")
  /\ (forall err message,
        outcome r = Returned (Some err) ->
        In message (warnings a (trace r)) ->
        err <> message).
Proof.
  cbv zeta. repeat split.
  intros err message He Hm. vm_compute in He, Hm.
  injection He as <-. destruct Hm as [<-|[]]. discriminate.
Qed.

Lemma name_is_resolved_before_the_status_is_read_witness :
  let a := resource "default" "foo" "" "" "10.0.0.5" "ipam-a" in
  let r := run (IpAddressCreatedOrUpdated misconfigured a) quiet in
  Status_Address (Status a) <> ""
  /\ Spec_Name (Spec a) = ""
  /\ Template.Execute (NameTemplate misconfigured)
       {| Template.Tag := Tag misconfigured;
          Template.Namespace := Namespace a;
          Template.Name := Name a |} "" = Err "can't evaluate field Foo"
  /\ (outcome r = Panicked "can't evaluate field Foo"
      /\ trace r = [Logged DebugLevel (msg_processing a)]
      /\ final r = quiet).
Proof.
  cbv zeta. split; [discriminate|]. split; [reflexivity|]. split; [reflexivity|].
  apply (name_is_resolved_before_the_status_is_read misconfigured
           (resource "default" "foo" "" "" "10.0.0.5" "ipam-a") quiet
           "can't evaluate field Foo");
    reflexivity.
Defined.

Lemma empty_provider_is_released_witness :
  let a := resource "default" "foo" "" "" "10.0.0.5" "" in
  let r := run (IpAddressDeleted prod a) quiet in
  Status_Address (Status a) <> ""
  /\ Spec_Ref (Spec a) = ""
  /\ ((Status_Provider (Status a) = "" ->
       released (trace r) = [Status_Address (Status a)])
      /\ (released (trace r) = [] <->
          Status_Provider (Status a) <> ""
          /\ Status_Provider (Status a) <> IpamName prod)).
Proof.
  cbv zeta. split; [discriminate|]. split; [reflexivity|].
  apply (empty_provider_is_released prod
           (resource "default" "foo" "" "" "10.0.0.5" "") quiet);
    [discriminate | reflexivity].
Defined.

(* ===================================================================== *)
(** ** Further properties of the methods *)
(* ===================================================================== *)

(** *** Templates: when execution fails *)



Section Further.

Context {W : Type} `{Collaborators W}.

Ltac created_cases c a w :=
  let r := fresh "r" in
  let P := fresh "P" in
  generalize (Created_run c a w);
  generalize (run (IpAddressCreatedOrUpdated c a) w);
  intros r P;
  destruct P as [ e HN
                | oname HN Hset
                | oname e message w1 HN Hunset Hrefused
                | oname ip e w1 a3 w2 HN Hunset Hobtained Hupdate
                | oname ip e w1 err w2 HN Hunset Hobtained Hupdate ].

Ltac deleted_cases c a w :=
  let r := fresh "r" in
  let P := fresh "P" in
  generalize (Deleted_run c a w);
  generalize (run (IpAddressDeleted c a) w);
  intros r P;
  destruct P as [ Hforeign1 Hforeign2
                | Howned Hunset
                | Howned Hset Href
                | w1 Howned Hset Hfresh Hrelease
                | err w1 Howned Hset Hfresh Hrelease ].

(** The trace of a failure report, written out in the goal and in the
    hypotheses. *)
Ltac reported :=
  repeat match goal with
  | |- context [failure ?o ?m ?w] =>
      let Ht := fresh "Ht" in
      destruct (failure_trace o m w) as (? & ? & ? & Ht);
      cbn [after done outcome final trace app] in *;
      rewrite ?Ht, ?failure_outcome in *; clear Ht
  | H : context [failure ?o ?m ?w] |- _ =>
      let Ht := fresh "Ht" in
      destruct (failure_trace o m w) as (? & ? & ? & Ht);
      cbn [after done outcome final trace app] in *;
      rewrite ?Ht, ?failure_outcome in *; clear Ht
  end;
  cbn [after done outcome final trace app] in *.

(** Membership in a trace that is written out, case by case. *)
Ltac members :=
  repeat match goal with
  | H : In _ (_ :: _) |- _ => destruct H as [H|H]
  | H : In _ [] |- _ => destruct H
  | H : _ \/ _ |- _ => destruct H as [H|H]
  | H : False |- _ => destruct H
  | H : @eq Entry _ _ |- _ => first [discriminate H | injection H as ? ? ? | injection H as ? ? | injection H as ?]
  | H : @eq IpAddress _ (with_status _ _ _ _) |- _ => symmetry in H
  end; subst.

(** X1.  [MakeEvent] reads the clock twice and creates exactly one event,
    in the namespace of the object: its type is Warning when [warn] is
    set and Normal otherwise, its message is the message given, it
    involves the object (kind IpAddress, API version v1, the object's
    name, namespace, UID and resource version) and takes the object's
    name as the prefix of its own.  It returns the error of the event
    client, nil when the client accepts; it calls neither the backend nor
    the store. *)
Theorem MakeEvent_returns_the_answer_of_the_client c o message warn (w : W) :
  let r := run (MakeEvent c o message warn) w in
  exists ev answer,
    events (trace r) = [(Namespace o, ev)]
    /\ event_answers (trace r) = [answer]
    /\ outcome r = Returned (err_of answer)
    /\ Type_ ev = (if warn then "Warning" else "Normal")
    /\ Message ev = message
    /\ GenerateName ev = Name o
    /\ InvolvedObject ev
       = {| ref_Name := Name o; ref_Namespace := Namespace o;
            ref_APIVersion := "v1"; ref_UID := UID o;
            ref_Kind := "IpAddress";
            ref_ResourceVersion := ResourceVersion o |}
    /\ warnings o (trace r) = (if warn then [message] else [])
    /\ existsb is_backend_call (trace r) = false
    /\ written (trace r) = []
    /\ error_lines (trace r) = [].
Proof.
  cbv zeta. unfold MakeEvent. cbn.
  destruct (Now w) as [first w1]. cbn.
  destruct (Now w1) as [last w2]. cbn.
  destruct (EventsCreate _ _ w2) as [answer w3]. cbn.
  eexists _, answer. repeat split.
  destruct warn; cbn; [now rewrite is_warning_for_event | reflexivity].
Qed.

(** X2.  [LogEventAndFail] never returns nil and never passes on the
    answer of the event client: whatever that answer, it returns the
    formatted message as the error, after logging the message once at
    error level and creating one Warning event for the object with the
    message as it was given.  It calls neither the backend nor the
    store. *)
Theorem LogEventAndFail_always_fails c o message (w : W) :
  let r := run (LogEventAndFail c o message) w in
  outcome r = Returned (Some (Fmt.Errorf message))
  /\ error_lines (trace r) = [message]
  /\ warnings o (trace r) = [message]
  /\ List.length (events (trace r)) = 1
  /\ existsb is_backend_call (trace r) = false
  /\ written (trace r) = [].
Proof.
  cbv zeta. rewrite run_LogEventAndFail.
  destruct (failure_trace o message w) as (first & last & answer & Ht).
  rewrite Ht, failure_outcome. cbn [error_lines warnings events existsb written
    is_backend_call orb List.length].
  now rewrite is_warning_for_event.
Qed.

(** X3.  When the message holds no percent sign, the error
    [LogEventAndFail] returns has the message itself as its text, the
    text of the Warning event. *)
Theorem plain_message_is_returned_as_it_is c o message (w : W) :
  Fmt.plain message = true ->
  let r := run (LogEventAndFail c o message) w in
  outcome r = Returned (Some message)
  /\ warnings o (trace r) = [message].
Proof.
  intros Hp. cbv zeta. rewrite run_LogEventAndFail.
  destruct (failure_trace o message w) as (first & last & answer & Ht).
  rewrite Ht, failure_outcome, (FmtFacts.Errorf_plain _ Hp).
  cbn [warnings]. now rewrite is_warning_for_event.
Qed.

(** The name of the object is read from its Spec, namespace and name: a
    new status does not change it. *)
Lemma NameFor_with_status c a ip oname provider :
  NameFor c (with_status a ip oname provider) = NameFor c a.
Proof. reflexivity. Qed.

(** X4.  [IpAddressCreatedOrUpdated] never calls [Unassign]; it calls the
    backend at most once and the store at most once.  [Assign] is called
    only for an unassigned resource without a reference, with the name
    [NameFor] resolved; [Search] only for an unassigned resource with a
    reference, with Spec.Ref as the query and exact matching. *)
Theorem creation_calls_the_backend_at_most_once c a (w : W) :
  let r := run (IpAddressCreatedOrUpdated c a) w in
  released (trace r) = []
  /\ List.length (filter is_backend_call (trace r)) <= 1
  /\ List.length (written (trace r)) <= 1
  /\ (forall name answer,
        In (Assigned name answer) (trace r) ->
        Status_Address (Status a) = "" /\ Spec_Ref (Spec a) = ""
        /\ NameFor c a = Returned name)
  /\ (forall query exact answer,
        In (Searched query exact answer) (trace r) ->
        Status_Address (Status a) = "" /\ Spec_Ref (Spec a) <> ""
        /\ query = Spec_Ref (Spec a) /\ exact = true).
Proof.
  cbv zeta.
  created_cases c a w; reported;
    try destruct Hrefused; try destruct Hobtained;
    cbn [released filter is_backend_call written List.length];
    repeat split; intros; members; auto; try lia; try contradiction.
Qed.

(** X5.  [IpAddressCreatedOrUpdated] returns an error exactly when the
    backend let it down ([Assign] or [Search] failed, or [Search] did not
    find exactly one address) or the store refused the update; and
    exactly then a Warning event is created for the resource.  On
    success no event is created and nothing is logged at error level. *)
Theorem creation_fails_exactly_when_refused c a (w : W) :
  let r := run (IpAddressCreatedOrUpdated c a) w in
  ((exists err, outcome r = Returned (Some err))
   <-> existsb allocation_failed (trace r) || existsb update_failed (trace r) = true)
  /\ ((exists err, outcome r = Returned (Some err))
      <-> warnings a (trace r) <> [])
  /\ (outcome r = Returned None ->
      events (trace r) = [] /\ error_lines (trace r) = []).
Proof.
  cbv zeta.
  created_cases c a w; reported;
    try destruct Hrefused; try destruct Hobtained;
    cbn; rewrite ?is_warning_for_event;
    repeat split; intros;
    repeat match goal with
           | E : exists _, _ |- _ => destruct E
           end;
    try discriminate; try congruence; eauto.
Qed.

(** X6.  Whatever [IpAddressCreatedOrUpdated] hands to the store's
    [Update], also when the store then refuses it, is the resource itself
    with a new status: the address is one the backend gave in this very
    run (by [Assign], or as the single match of [Search]), the name is
    the one [NameFor] resolved, the provider is [IpamName]; the
    resource had no address before. *)
Theorem only_backend_addresses_are_written c a (w : W) a2 :
  let r := run (IpAddressCreatedOrUpdated c a) w in
  In a2 (written (trace r)) ->
  exists oname ip,
    NameFor c a = Returned oname
    /\ Status_Address (Status a) = ""
    /\ a2 = with_status a ip oname (IpamName c)
    /\ (In (Assigned oname (Ok ip)) (trace r)
        \/ In (Searched (Spec_Ref (Spec a)) true (Ok [ip])) (trace r)).
Proof.
  cbv zeta.
  created_cases c a w; reported;
    try destruct Hrefused; try destruct Hobtained;
    cbn [written]; intros Hin; members;
    exists oname, ip; repeat split; auto; cbn [In]; auto 10.
Qed.


(** *** Deletion *)

(** What a deletion releases, by the three tests. *)
Lemma released_on_deletion c a (w : W) :
  released (trace (run (IpAddressDeleted c a) w))
  = (if releases c a then [Status_Address (Status a)] else [])
  /\ existsb is_backend_call (trace (run (IpAddressDeleted c a) w)) = releases c a.
Proof.
  unfold releases.
  deleted_cases c a w; reported; cbn [released existsb is_backend_call orb];
    repeat match goal with
           | Ho : owned c a |- _ => apply owned_test in Ho; rewrite Ho
           | Hn : ?x <> ?y |- context [String.eqb ?x ?y] =>
               rewrite (proj2 (String.eqb_neq x y) Hn)
           | He : ?x = ?y |- context [String.eqb ?x ?y] =>
               rewrite (proj2 (String.eqb_eq x y) He)
           end;
    cbn [negb andb]; split; reflexivity.
Qed.

(** X8.  [IpAddressDeleted] never panics (it resolves no name, so it
    works under any template), never updates the store and calls the
    backend at most once.  It returns an error exactly when [Unassign]
    answered with one, and exactly then a Warning event is created for
    the resource; on success no event is created and nothing is logged
    at error level. *)
Theorem deletion_fails_exactly_when_release_is_refused c a (w : W) :
  let r := run (IpAddressDeleted c a) w in
  (exists res, outcome r = Returned res)
  /\ written (trace r) = []
  /\ List.length (filter is_backend_call (trace r)) <= 1
  /\ ((exists err, outcome r = Returned (Some err))
      <-> existsb release_failed (trace r) = true)
  /\ ((exists err, outcome r = Returned (Some err))
      <-> warnings a (trace r) <> [])
  /\ (outcome r = Returned None ->
      events (trace r) = [] /\ error_lines (trace r) = []).
Proof.
  cbv zeta.
  deleted_cases c a w; reported;
    cbn [written filter is_backend_call List.length existsb release_failed
         orb warnings events error_lines];
    rewrite ?is_warning_for_event;
    repeat split; intros;
    repeat match goal with
           | E : exists _, _ |- _ => destruct E
           end;
    try discriminate; try congruence; eauto.
Qed.

(** *** The written object, delivered again *)

(** The object handed to the store, and what the run allocated. *)
Lemma written_is_a_status_update c a (w : W) a2 :
  In a2 (written (trace (run (IpAddressCreatedOrUpdated c a) w))) ->
  exists oname ip,
    NameFor c a = Returned oname
    /\ a2 = with_status a ip oname (IpamName c)
    /\ allocated (trace (run (IpAddressCreatedOrUpdated c a) w))
       = (if String.eqb (Spec_Ref (Spec a)) "" then [ip] else []).
Proof.
  created_cases c a w; reported;
    try destruct Hrefused; try destruct Hobtained;
    cbn [written allocated]; intros Hin; members;
    exists oname, ip; repeat split; auto;
    match goal with
    | He : ?x = ?y |- context [String.eqb ?x ?y] =>
        now rewrite (proj2 (String.eqb_eq x y) He)
    | Hn : ?x <> ?y |- context [String.eqb ?x ?y] =>
        now rewrite (proj2 (String.eqb_neq x y) Hn)
    end.
Qed.

(** X9.  Creation and deletion fit together.  When the object that
    [IpAddressCreatedOrUpdated] wrote carries an address and is later
    handed to [IpAddressDeleted] of the same controller, the deletion
    releases exactly the addresses the creation got from [Assign]: that
    one address for a resource without a reference, and none, without
    any backend call, for a reference. *)
Theorem deletion_releases_what_creation_allocated c a (w w' : W) a2 :
  let r := run (IpAddressCreatedOrUpdated c a) w in
  In a2 (written (trace r)) ->
  Status_Address (Status a2) <> "" ->
  let d := run (IpAddressDeleted c a2) w' in
  released (trace d) = allocated (trace r)
  /\ (Spec_Ref (Spec a) = "" -> released (trace d) = [Status_Address (Status a2)])
  /\ (Spec_Ref (Spec a) <> "" ->
      released (trace d) = [] /\ existsb is_backend_call (trace d) = false).
Proof.
  cbv zeta. intros Hin Haddr.
  destruct (written_is_a_status_update c a w a2 Hin) as (oname & ip & _ & -> & Hal).
  destruct (released_on_deletion c (with_status a ip oname (IpamName c)) w')
    as [Hrel Hcall].
  rewrite Hrel, Hcall, Hal. unfold releases.
  cbn [with_status Status Spec Status_Provider Status_Address] in *.
  rewrite String.eqb_refl, (proj2 (String.eqb_neq ip "") Haddr).
  destruct (String.eqb_spec (Spec_Ref (Spec a)) "") as [Hr|Hr];
    destruct (String.eqb (IpamName c) ""); cbn;
    repeat split; intros; try reflexivity; contradiction.
Qed.

(** X10.  Ownership across controllers.  An object written by one
    controller for a resource without a reference, carrying an address,
    is released by the deletion handler of another controller exactly
    when the writer's [IpamName] is empty or equal to the other's; it is
    skipped exactly when the writer's [IpamName] is non-empty and
    differs. *)
Theorem written_object_is_released_by_its_provider c c' a (w w' : W) a2 :
  In a2 (written (trace (run (IpAddressCreatedOrUpdated c a) w))) ->
  Status_Address (Status a2) <> "" ->
  Spec_Ref (Spec a) = "" ->
  let d := run (IpAddressDeleted c' a2) w' in
  (released (trace d) = [Status_Address (Status a2)]
   <-> IpamName c = "" \/ IpamName c = IpamName c')
  /\ (released (trace d) = []
      <-> IpamName c <> "" /\ IpamName c <> IpamName c').
Proof.
  cbv zeta. intros Hin Haddr Href.
  destruct (written_is_a_status_update c a w a2 Hin) as (oname & ip & _ & -> & _).
  destruct (released_on_deletion c' (with_status a ip oname (IpamName c)) w')
    as [Hrel _].
  rewrite Hrel. unfold releases.
  cbn [with_status Status Spec Status_Provider Status_Address] in *.
  rewrite Href, (proj2 (String.eqb_neq ip "") Haddr).
  destruct (String.eqb_spec (IpamName c) "") as [He|He];
    destruct (String.eqb_spec (IpamName c) (IpamName c')) as [Hs|Hs];
    cbn; repeat split; intros; try discriminate; try tauto;
    intuition congruence.
Qed.

(** X11.  Delivering the written object again does nothing.  When the
    object that [IpAddressCreatedOrUpdated] wrote carries an address, the
    handler of the same controller returns success on it without any
    call to the backend, to the store or to the event client, and leaves
    the collaborators as they are: its name resolved once, so it cannot
    panic now. *)
Theorem written_object_is_not_processed_again c a (w w' : W) a2 :
  In a2 (written (trace (run (IpAddressCreatedOrUpdated c a) w))) ->
  Status_Address (Status a2) <> "" ->
  let r' := run (IpAddressCreatedOrUpdated c a2) w' in
  outcome r' = Returned None
  /\ final r' = w'
  /\ existsb is_backend_call (trace r') = false
  /\ written (trace r') = []
  /\ events (trace r') = [].
Proof.
  cbv zeta. intros Hin Haddr.
  destruct (written_is_a_status_update c a w a2 Hin) as (oname0 & ip0 & HN0 & -> & _).
  created_cases c (with_status a ip0 oname0 (IpamName c)) w';
    rewrite NameFor_with_status in HN; try congruence;
    try contradiction.
  repeat split.
Qed.

(** X12.  An empty address is not an assignment.  When the backend
    answers with an empty address and no error, the object
    [IpAddressCreatedOrUpdated] writes has an empty Status.Address; handed
    to the handler again it is taken for unassigned, and the backend is
    called once more. *)
Theorem empty_address_is_allocated_again c a (w w' : W) a2 :
  In a2 (written (trace (run (IpAddressCreatedOrUpdated c a) w))) ->
  Status_Address (Status a2) = "" ->
  let r' := run (IpAddressCreatedOrUpdated c a2) w' in
  List.length (filter is_backend_call (trace r')) = 1.
Proof.
  cbv zeta. intros Hin Haddr.
  destruct (written_is_a_status_update c a w a2 Hin) as (oname0 & ip0 & HN0 & -> & _).
  created_cases c (with_status a ip0 oname0 (IpamName c)) w';
    rewrite NameFor_with_status in HN; try congruence;
    try contradiction; reported;
    try destruct Hrefused; try destruct Hobtained; reflexivity.
Qed.

End Further.

(* ===================================================================== *)
(** ** Messages without a percent sign *)
(* ===================================================================== *)

Lemma plain_append (s1 s2 : string) :
  Fmt.plain (s1 ++ s2) = Fmt.plain s1 && Fmt.plain s2.
Proof.
  induction s1 as [|ch s1 IH]; [reflexivity|].
  cbn [String.append Fmt.plain]. rewrite IH. apply andb_assoc.
Qed.

Lemma plain_digits (d : Decimal.uint) :
  Fmt.plain (NilEmpty.string_of_uint d) = true.
Proof. induction d; cbn; auto. Qed.

(** A length in decimal holds digits only. *)
Lemma plain_decimal (n : nat) : Fmt.plain (Fmt.decimal n) = true.
Proof.
  unfold Fmt.decimal, NilZero.string_of_uint.
  destruct (Nat.to_uint n); try reflexivity; apply plain_digits.
Qed.

Section Plain.

Variable a : IpAddress.
Hypothesis plain_namespace : Fmt.plain (Namespace a) = true.
Hypothesis plain_name : Fmt.plain (Name a) = true.

Ltac plain_message :=
  unfold msg_assign_failed, msg_search_failed, msg_no_match, msg_ambiguous,
    msg_update_failed, msg_unassign_failed, object_id;
  rewrite ?plain_append, ?plain_decimal, ?plain_namespace, ?plain_name;
  repeat match goal with
         | Hp : Fmt.plain ?x = true |- context [Fmt.plain ?x] => rewrite Hp
         end;
  reflexivity.

Lemma plain_msg_assign_failed err :
  Fmt.plain err = true -> Fmt.plain (msg_assign_failed a err) = true.
Proof. intros. plain_message. Qed.

Lemma plain_msg_search_failed err :
  Fmt.plain (Spec_Ref (Spec a)) = true -> Fmt.plain err = true ->
  Fmt.plain (msg_search_failed a err) = true.
Proof. intros. plain_message. Qed.

Lemma plain_msg_no_match :
  Fmt.plain (Spec_Ref (Spec a)) = true -> Fmt.plain (msg_no_match a) = true.
Proof. intros. plain_message. Qed.

Lemma plain_msg_ambiguous n :
  Fmt.plain (Spec_Ref (Spec a)) = true -> Fmt.plain (msg_ambiguous a n) = true.
Proof. intros. plain_message. Qed.

Lemma plain_msg_update_failed ip err :
  Fmt.plain ip = true -> Fmt.plain err = true ->
  Fmt.plain (msg_update_failed a ip err) = true.
Proof. intros. plain_message. Qed.

Lemma plain_msg_unassign_failed err :
  Fmt.plain (Status_Address (Status a)) = true -> Fmt.plain err = true ->
  Fmt.plain (msg_unassign_failed a err) = true.
Proof. intros. plain_message. Qed.

End Plain.

Section PlainRuns.

Context {W : Type} `{Collaborators W}.

Ltac answers :=
  repeat match goal with
         | Hp : _ && _ = true |- _ =>
             let H1 := fresh "Hp" in
             apply andb_prop in Hp as [H1 Hp]
         end.

(** X13.  Where no percent sign comes in, the error of
    [IpAddressCreatedOrUpdated] is its Warning event.  When the namespace,
    the name and Spec.Ref of the resource hold no percent sign, and
    neither do the texts the collaborators answered with in the run (the
    error texts, the address given), then an error the handler returns
    has as its text the message of the one Warning event created for the
    resource, which is also the one line logged at error level. *)
Theorem creation_error_is_the_warning_without_percent c a (w : W) err :
  Fmt.plain (Namespace a) = true ->
  Fmt.plain (Name a) = true ->
  Fmt.plain (Spec_Ref (Spec a)) = true ->
  let r := run (IpAddressCreatedOrUpdated c a) w in
  forallb plain_answer (trace r) = true ->
  outcome r = Returned (Some err) ->
  warnings a (trace r) = [err] /\ error_lines (trace r) = [err].
Proof.
  intros Hns Hname Href. cbv zeta.
  generalize (Created_run c a w).
  generalize (run (IpAddressCreatedOrUpdated c a) w).
  intros r P.
  destruct P as [ e HN
                | oname HN Hset
                | oname e message w1 HN Hunset Hrefused
                | oname ip e w1 a3 w2 HN Hunset Hobtained Hupdate
                | oname ip e w1 err' w2 HN Hunset Hobtained Hupdate ];
    intros Hp He;
    try (destruct (failure_trace a message w1) as (first & last & answer & Ht));
    try (destruct (failure_trace a (msg_update_failed a ip err') w2)
           as (first & last & answer & Ht));
    cbn [after done outcome final trace app] in *;
    rewrite ?Ht, ?failure_outcome in *;
    try discriminate He.
  - assert (Hm : Fmt.plain message = true).
    { destruct Hrefused; cbn [forallb plain_answer] in Hp; answers;
        auto using plain_msg_assign_failed, plain_msg_search_failed,
          plain_msg_no_match, plain_msg_ambiguous. }
    rewrite (FmtFacts.Errorf_plain _ Hm) in He. injection He as <-.
    destruct Hrefused; cbn [warnings error_lines];
      now rewrite is_warning_for_event.
  - assert (Hm : Fmt.plain (msg_update_failed a ip err') = true).
    { destruct Hobtained; cbn [forallb plain_answer] in Hp; answers;
        auto using plain_msg_update_failed. }
    rewrite (FmtFacts.Errorf_plain _ Hm) in He. injection He as <-.
    destruct Hobtained; cbn [warnings error_lines];
      now rewrite is_warning_for_event.
Qed.

(** X14.  The same for [IpAddressDeleted]: when the namespace, the name
    and Status.Address of the resource hold no percent sign, and neither
    does the error text [Unassign] answered with, an error the handler
    returns has as its text the message of the one Warning event created
    for the resource. *)
Theorem deletion_error_is_the_warning_without_percent c a (w : W) err :
  Fmt.plain (Namespace a) = true ->
  Fmt.plain (Name a) = true ->
  Fmt.plain (Status_Address (Status a)) = true ->
  let r := run (IpAddressDeleted c a) w in
  forallb plain_answer (trace r) = true ->
  outcome r = Returned (Some err) ->
  warnings a (trace r) = [err] /\ error_lines (trace r) = [err].
Proof.
  intros Hns Hname Haddr. cbv zeta.
  generalize (Deleted_run c a w).
  generalize (run (IpAddressDeleted c a) w).
  intros r P.
  destruct P as [ Hforeign1 Hforeign2
                | Howned Hunset
                | Howned Hset Href
                | w1 Howned Hset Hfresh Hrelease
                | err' w1 Howned Hset Hfresh Hrelease ];
    intros Hp He;
    try (destruct (failure_trace a (msg_unassign_failed a err') w1)
           as (first & last & answer & Ht));
    cbn [after done outcome final trace app] in *;
    rewrite ?Ht, ?failure_outcome in *;
    try discriminate He.
  assert (Hm : Fmt.plain (msg_unassign_failed a err') = true).
  { cbn [forallb plain_answer] in Hp. answers.
    auto using plain_msg_unassign_failed. }
  rewrite (FmtFacts.Errorf_plain _ Hm) in He. injection He as <-.
  cbn [warnings error_lines]. now rewrite is_warning_for_event.
Qed.

End PlainRuns.

(* ===================================================================== *)
(** ** The further properties on concrete runs *)
(* ===================================================================== *)

(** The event client refuses the event; the handler's error is still the
    message, not the client's error. *)
Example refused_event_is_dropped :
  let w := {| assign_answer := Err "pool exhausted"; unassign_answer := None;
              search_answer := Ok []; update_error := None;
              events_error := Some "events is forbidden"; ticks := 7 |} in
  let r := run (IpAddressCreatedOrUpdated prod (resource "default" "foo" "" "" "" "")) w in
  event_answers (trace r) = [Err "events is forbidden"]
  /\ outcome r
     = Returned (Some "could not assign new address for 'default-foo': pool exhausted").
Proof. split; reflexivity. Qed.

Lemma plain_message_is_returned_as_it_is_witness :
  let o := resource "default" "foo" "" "" "" "" in
  let message := "could not assign new address for 'default-foo': pool exhausted" in
  let r := run (LogEventAndFail prod o message) quiet in
  Fmt.plain message = true
  /\ (outcome r = Returned (Some message) /\ warnings o (trace r) = [message]).
Proof.
  cbv zeta. split; [reflexivity|].
  apply (plain_message_is_returned_as_it_is prod
           (resource "default" "foo" "" "" "" "")
           "could not assign new address for 'default-foo': pool exhausted"
           quiet).
  reflexivity.
Defined.

Lemma only_backend_addresses_are_written_witness :
  let a := resource "default" "foo" "host=x" "" "" "" in
  let a2 := with_status a "10.0.0.9" "prod-default-foo" "ipam-a" in
  let r := run (IpAddressCreatedOrUpdated prod a) quiet in
  In a2 (written (trace r))
  /\ exists oname ip,
       NameFor prod a = Returned oname
       /\ Status_Address (Status a) = ""
       /\ a2 = with_status a ip oname (IpamName prod)
       /\ (In (Assigned oname (Ok ip)) (trace r)
           \/ In (Searched (Spec_Ref (Spec a)) true (Ok [ip])) (trace r)).
Proof.
  cbv zeta. split; [left; reflexivity|].
  apply (only_backend_addresses_are_written prod
           (resource "default" "foo" "host=x" "" "" "") quiet
           (with_status (resource "default" "foo" "host=x" "" "" "")
              "10.0.0.9" "prod-default-foo" "ipam-a")).
  left. reflexivity.
Defined.

Lemma deletion_releases_what_creation_allocated_witness :
  let a := resource "default" "foo" "" "" "" "" in
  let a2 := with_status a "10.0.0.5" "prod-default-foo" "ipam-a" in
  let r := run (IpAddressCreatedOrUpdated prod a) quiet in
  let d := run (IpAddressDeleted prod a2) quiet in
  In a2 (written (trace r))
  /\ Status_Address (Status a2) <> ""
  /\ (released (trace d) = allocated (trace r)
      /\ (Spec_Ref (Spec a) = "" -> released (trace d) = [Status_Address (Status a2)])
      /\ (Spec_Ref (Spec a) <> "" ->
          released (trace d) = [] /\ existsb is_backend_call (trace d) = false)).
Proof.
  cbv zeta. split; [left; reflexivity|]. split; [discriminate|].
  apply (deletion_releases_what_creation_allocated prod
           (resource "default" "foo" "" "" "" "") quiet quiet
           (with_status (resource "default" "foo" "" "" "" "")
              "10.0.0.5" "prod-default-foo" "ipam-a"));
    [left; reflexivity | discriminate].
Defined.

Lemma written_object_is_released_by_its_provider_witness :
  let a := resource "default" "foo" "" "" "" "" in
  let a2 := with_status a "10.0.0.5" "prod-default-foo" "ipam-a" in
  let d := run (IpAddressDeleted other_provider a2) quiet in
  In a2 (written (trace (run (IpAddressCreatedOrUpdated prod a) quiet)))
  /\ Status_Address (Status a2) <> ""
  /\ Spec_Ref (Spec a) = ""
  /\ ((released (trace d) = [Status_Address (Status a2)]
       <-> IpamName prod = "" \/ IpamName prod = IpamName other_provider)
      /\ (released (trace d) = []
          <-> IpamName prod <> "" /\ IpamName prod <> IpamName other_provider)).
Proof.
  cbv zeta. split; [left; reflexivity|]. split; [discriminate|].
  split; [reflexivity|].
  apply (written_object_is_released_by_its_provider prod other_provider
           (resource "default" "foo" "" "" "" "") quiet quiet
           (with_status (resource "default" "foo" "" "" "" "")
              "10.0.0.5" "prod-default-foo" "ipam-a"));
    [left; reflexivity | discriminate | reflexivity].
Defined.

Lemma written_object_is_not_processed_again_witness :
  let a := resource "default" "foo" "" "" "" "" in
  let a2 := with_status a "10.0.0.5" "prod-default-foo" "ipam-a" in
  let r' := run (IpAddressCreatedOrUpdated prod a2) quiet in
  In a2 (written (trace (run (IpAddressCreatedOrUpdated prod a) quiet)))
  /\ Status_Address (Status a2) <> ""
  /\ (outcome r' = Returned None
      /\ final r' = quiet
      /\ existsb is_backend_call (trace r') = false
      /\ written (trace r') = []
      /\ events (trace r') = []).
Proof.
  cbv zeta. split; [left; reflexivity|]. split; [discriminate|].
  apply (written_object_is_not_processed_again prod
           (resource "default" "foo" "" "" "" "") quiet quiet
           (with_status (resource "default" "foo" "" "" "" "")
              "10.0.0.5" "prod-default-foo" "ipam-a"));
    [left; reflexivity | discriminate].
Defined.

Lemma empty_address_is_allocated_again_witness :
  let a := resource "default" "foo" "" "" "" "" in
  let w := answering (Ok "") (Ok []) None None in
  let a2 := with_status a "" "prod-default-foo" "ipam-a" in
  let r := run (IpAddressCreatedOrUpdated prod a) w in
  let r' := run (IpAddressCreatedOrUpdated prod a2) w in
  outcome r = Returned None
  /\ In a2 (written (trace r))
  /\ Status_Address (Status a2) = ""
  /\ List.length (filter is_backend_call (trace r')) = 1.
Proof.
  cbv zeta. split; [reflexivity|]. split; [left; reflexivity|].
  split; [reflexivity|].
  apply (empty_address_is_allocated_again prod
           (resource "default" "foo" "" "" "" "")
           (answering (Ok "") (Ok []) None None)
           (answering (Ok "") (Ok []) None None)
           (with_status (resource "default" "foo" "" "" "" "")
              "" "prod-default-foo" "ipam-a"));
    [left; reflexivity | reflexivity].
Defined.

Lemma creation_error_is_the_warning_without_percent_witness :
  let a := resource "default" "foo" "" "" "" "" in
  let w := answering (Err "pool exhausted") (Ok []) None None in
  let r := run (IpAddressCreatedOrUpdated prod a) w in
  let err := "could not assign new address for 'default-foo': pool exhausted" in
  Fmt.plain (Namespace a) = true
  /\ Fmt.plain (Name a) = true
  /\ Fmt.plain (Spec_Ref (Spec a)) = true
  /\ forallb plain_answer (trace r) = true
  /\ outcome r = Returned (Some err)
  /\ (warnings a (trace r) = [err] /\ error_lines (trace r) = [err]).
Proof.
  cbv zeta. repeat (split; [reflexivity|]).
  apply (creation_error_is_the_warning_without_percent prod
           (resource "default" "foo" "" "" "" "")
           (answering (Err "pool exhausted") (Ok []) None None)
           "could not assign new address for 'default-foo': pool exhausted");
    reflexivity.
Defined.

Lemma deletion_error_is_the_warning_without_percent_witness :
  let a := resource "default" "foo" "" "" "10.0.0.5" "ipam-a" in
  let w := answering (Ok "10.0.0.5") (Ok []) (Some "address is in use") None in
  let r := run (IpAddressDeleted prod a) w in
  let err := "could not unassign address 10.0.0.5 for 'default-foo' from IPAM: address is in use" in
  Fmt.plain (Namespace a) = true
  /\ Fmt.plain (Name a) = true
  /\ Fmt.plain (Status_Address (Status a)) = true
  /\ forallb plain_answer (trace r) = true
  /\ outcome r = Returned (Some err)
  /\ (warnings a (trace r) = [err] /\ error_lines (trace r) = [err]).
Proof.
  cbv zeta. repeat (split; [reflexivity|]).
  apply (deletion_error_is_the_warning_without_percent prod
           (resource "default" "foo" "" "" "10.0.0.5" "ipam-a")
           (answering (Ok "10.0.0.5") (Ok []) (Some "address is in use") None)
           "could not unassign address 10.0.0.5 for 'default-foo' from IPAM: address is in use");
    reflexivity.
Defined.
